(** * zkLogin credential derivation: apps/wallet/src/background/accounts/zk/utils.ts

    A shallow embedding of the four exported functions of [utils.ts]
    ([prepareZKLogin], [zkLogin], [fetchSalt], [createPartialZKSignature])
    together with the JavaScript built-ins they rely on, followed by the
    properties of the credential-derivation pipeline.

    Conventions of the embedding
    - a JS [string] is a Rocq [string], read as the sequence of its UTF-8
      bytes (URLSearchParams percent-encodes exactly those bytes);
    - a [Uint8Array]/[Buffer] is a [list byte];
    - a [bigint] is a [Z];
    - a [number] that holds an epoch is an integer-valued double, given by
      its value in [Z]; [+] on numbers is the exact sum rounded to the
      nearest double ([number_add]), which is exact up to [2^53] only;
    - an [async] function is a computation in the monad [M]: it threads the
      world (entropy source, trace of external calls) and either returns a
      value or throws;
    - everything imported from outside the file (key generation, nonce
      hashing, the network, the browser identity API, the provider table)
      is a field of the class [Platform]. *)

From Stdlib Require Import ZArith NArith String Ascii List Bool Lia.
From Stdlib Require Import DecimalString DecimalN DecimalZ DecimalFacts.
From Stdlib Require Import Strings.Byte.
From ExtLib Require Import Structures.Monad.
Import ListNotations.
Import MonadNotation.

Set Warnings "-register-all".

Local Open Scope string_scope.
Local Open Scope monad_scope.

(* ===================================================================== *)
(** * JavaScript built-ins used by the file *)
(* ===================================================================== *)

Module JS.

(** ** Exceptions and completion records *)

(** The values the code throws or the platform rejects with. *)
Inductive exn : Type :=
| Error (message : string)
| TypeError (message : string)
| SyntaxError (message : string).

(** Outcome of evaluating an expression: normal completion or a throw
    (for a promise: fulfilled or rejected). *)
Inductive result (A : Type) : Type :=
| Return (a : A)
| Throw (e : exn).
Arguments Return {A} a.
Arguments Throw {A} e.

Definition is_return {A} (r : result A) : bool :=
  match r with Return _ => true | Throw _ => false end.

(** ** Strings *)

(** Truthiness of a [string]: only the empty string is falsy. *)
Definition truthy (s : string) : bool :=
  match s with EmptyString => false | String _ _ => true end.

(** Truthiness of an optional [string] argument ([undefined] is falsy). *)
Definition truthy_opt (o : option string) : bool :=
  match o with Some s => truthy s | None => false end.

Fixpoint drop (n : nat) (s : string) : string :=
  match n, s with
  | O, _ => s
  | S n', String _ s' => drop n' s'
  | S _, EmptyString => EmptyString
  end.

(** [s.replace(pattern, replacement)] with a string pattern: the first
    occurrence of [pattern] (scanning from the left) is replaced.  The
    replacement strings of the file contain no [$] pattern. *)
Fixpoint replace (pattern replacement s : string) : string :=
  if String.prefix pattern s then replacement ++ drop (String.length pattern) s
  else match s with
       | EmptyString => EmptyString
       | String c s' => String c (replace pattern replacement s')
       end.

(** ** number *)

(** The double nearest to the integer [z]: integers of magnitude below
    [2^53] are doubles; above, a double has 53 significant bits, so [z] is
    rounded to a multiple of [2^e] with [e = log2 |z| - 52], a tie going
    to the even significand (IEEE 754 round-to-nearest-even).  Overflow to
    [Infinity] (magnitudes from [2^1024] on) is left out: adding [2] to a
    finite double never reaches it. *)
Definition round_to_double (z : Z) : Z :=
  let a := Z.abs z in
  if (a <? 2 ^ 53)%Z then z
  else
    let e := (Z.log2 a - 52)%Z in
    let q := (a / 2 ^ e)%Z in
    let r := (a mod 2 ^ e)%Z in
    let half := (2 ^ (e - 1))%Z in
    let q' :=
      if (r <? half)%Z then q
      else if (half <? r)%Z then (q + 1)%Z
      else if Z.even q then q else (q + 1)%Z in
    (Z.sgn z * (q' * 2 ^ e))%Z.

(** [x + y] on integer-valued numbers. *)
Definition number_add (x y : Z) : Z := round_to_double (x + y).

(** [Number.MAX_SAFE_INTEGER] *)
Definition MAX_SAFE_INTEGER : Z := 9007199254740991.

(** ** bigint *)

Definition byte_val (b : byte) : Z := Z.of_N (Byte.to_N b).

(** [toBigIntBE(buf)] of bigint-buffer: the unsigned big-endian integer
    whose base-256 digits are the bytes of [buf] ([0n] for an empty
    buffer). *)
Definition toBigIntBE (buf : list byte) : Z :=
  fold_left (fun acc b => acc * 256 + byte_val b)%Z buf 0%Z.

(** [n.toString()] on a bigint: decimal digits, a leading [-] when
    negative, no leading zeros. *)
Definition bigint_toString (n : Z) : string :=
  NilZero.string_of_int (Z.to_int n).

(** The reading direction, used to state round trips: [BigInt(s)] on a
    decimal literal. *)
Definition BigInt_parse (s : string) : option Z :=
  option_map Z.of_int (NilZero.int_of_string s).

Definition byte_of_Z (z : Z) : byte :=
  match Byte.of_N (Z.to_N (z mod 256)) with
  | Some b => b
  | None => x00
  end.

(** [toBufferBE(num, width)] of bigint-buffer, the inverse direction of
    [toBigIntBE]: [num] written on exactly [width] big-endian bytes. *)
Fixpoint toBufferBE (num : Z) (width : nat) : list byte :=
  match width with
  | O => []
  | S w => toBufferBE (num / 256) w ++ [byte_of_Z num]
  end.

Definition is_decimal_digit (c : ascii) : bool :=
  (48 <=? N_of_ascii c)%N && (N_of_ascii c <=? 57)%N.

Fixpoint all_chars (p : ascii -> bool) (s : string) : bool :=
  match s with
  | EmptyString => true
  | String c s' => p c && all_chars p s'
  end.

(** ** base64url (jose) *)

Definition base64url_alphabet : string :=
  "ABCDEFGHIJKLMNOPQRSTUVWXYZabcdefghijklmnopqrstuvwxyz0123456789-_".

Definition base64url_char (n : N) : ascii :=
  match String.get (N.to_nat n) base64url_alphabet with
  | Some c => c
  | None => "A"%char
  end.

(** [base64url.encode(bytes)]: RFC 4648 section 5 alphabet, no padding. *)
Fixpoint base64url_encode (input : list byte) : string :=
  match input with
  | [] => EmptyString
  | [a] =>
      let n := (Byte.to_N a * 16)%N in
      String (base64url_char (n / 64)) (String (base64url_char (n mod 64)) EmptyString)
  | [a; b] =>
      let n := ((Byte.to_N a * 256 + Byte.to_N b) * 4)%N in
      String (base64url_char (n / 4096))
        (String (base64url_char ((n / 64) mod 64))
           (String (base64url_char (n mod 64)) EmptyString))
  | a :: b :: c :: rest =>
      let n := (Byte.to_N a * 65536 + Byte.to_N b * 256 + Byte.to_N c)%N in
      String (base64url_char (n / 262144))
        (String (base64url_char ((n / 4096) mod 64))
           (String (base64url_char ((n / 64) mod 64))
              (String (base64url_char (n mod 64)) (base64url_encode rest))))
  end.

(** ** URLSearchParams (application/x-www-form-urlencoded) *)

(** The list of name-value pairs of a [URLSearchParams] object, in order. *)
Definition URLSearchParams : Type := list (string * string).

Definition URLSearchParams_append (params : URLSearchParams) (name value : string)
  : URLSearchParams :=
  (params ++ [(name, value)])%list.

(** Bytes left as they are by the serializer: ASCII alphanumerics and
    [*], [-], [.], [_]. *)
Definition is_form_safe (c : ascii) : bool :=
  let n := N_of_ascii c in
  ((48 <=? n) && (n <=? 57) || (65 <=? n) && (n <=? 90) || (97 <=? n) && (n <=? 122)
   || (n =? 42) || (n =? 45) || (n =? 46) || (n =? 95))%N.

Definition hex_upper (n : N) : ascii :=
  match String.get (N.to_nat n) "0123456789ABCDEF" with
  | Some c => c
  | None => "0"%char
  end.

Definition form_urlencode_byte (c : ascii) : string :=
  if Ascii.eqb c " " then "+"
  else if is_form_safe c then String c EmptyString
  else String "%" (String (hex_upper (N_of_ascii c / 16))
                     (String (hex_upper (N_of_ascii c mod 16)) EmptyString)).

Fixpoint form_urlencode (s : string) : string :=
  match s with
  | EmptyString => EmptyString
  | String c s' => form_urlencode_byte c ++ form_urlencode s'
  end.

(** [params.toString()]: the urlencoded serializer. *)
Definition URLSearchParams_toString (params : URLSearchParams) : string :=
  String.concat "&"
    (map (fun p => form_urlencode (fst p) ++ "=" ++ form_urlencode (snd p)) params).

Definition hex_value (c : ascii) : option N :=
  let n := N_of_ascii c in
  if ((48 <=? n) && (n <=? 57))%N then Some (n - 48)%N
  else if ((65 <=? n) && (n <=? 70))%N then Some (n - 55)%N
  else if ((97 <=? n) && (n <=? 102))%N then Some (n - 87)%N
  else None.

(** Percent-decoding: [%XY] with two hexadecimal digits is one byte, any
    other byte stands for itself.  The result is the decoded byte
    sequence; the replacement of ill-formed UTF-8 by U+FFFD that the
    parser applies afterwards is not modelled. *)
Fixpoint percent_decode (s : string) : string :=
  match s with
  | EmptyString => EmptyString
  | String c s' =>
      if Ascii.eqb c "%" then
        match s' with
        | String h (String l rest) =>
            match hex_value h, hex_value l with
            | Some x, Some y => String (ascii_of_N (x * 16 + y)) (percent_decode rest)
            | _, _ => String c (percent_decode s')
            end
        | _ => String c (percent_decode s')
        end
      else String c (percent_decode s')
  end.

Fixpoint plus_to_space (s : string) : string :=
  match s with
  | EmptyString => EmptyString
  | String c s' => String (if Ascii.eqb c "+" then " "%char else c) (plus_to_space s')
  end.

Definition form_urldecode (s : string) : string :=
  percent_decode (plus_to_space s).

(** Strictly split [s] on every occurrence of [sep]. *)
Fixpoint split_on (sep : ascii) (s : string) : list string :=
  match s with
  | EmptyString => [EmptyString]
  | String c s' =>
      if Ascii.eqb c sep then EmptyString :: split_on sep s'
      else match split_on sep s' with
           | h :: t => String c h :: t
           | [] => [String c EmptyString]
           end
  end.

(** Name and value of one sequence: split at the first [=], the value is
    empty when there is none. *)
Fixpoint split_pair (s : string) : string * string :=
  match s with
  | EmptyString => (EmptyString, EmptyString)
  | String c s' =>
      if Ascii.eqb c "=" then (EmptyString, s')
      else let (n, v) := split_pair s' in (String c n, v)
  end.

(** The urlencoded parser: sequences are separated by [&], empty
    sequences are skipped. *)
Definition urlencoded_parse (input : string) : URLSearchParams :=
  flat_map
    (fun seq =>
       if truthy seq then
         let (n, v) := split_pair seq in [(form_urldecode n, form_urldecode v)]
       else [])
    (split_on "&" input).

(** [new URLSearchParams(init)] with a string: one leading [?] is dropped,
    the rest goes through the urlencoded parser. *)
Definition URLSearchParams_new (init : string) : URLSearchParams :=
  match init with
  | String "?" rest => urlencoded_parse rest
  | _ => urlencoded_parse init
  end.

(** [params.get(name)]: the value of the first pair with that name, or
    [null]. *)
Fixpoint URLSearchParams_get (params : URLSearchParams) (name : string) : option string :=
  match params with
  | [] => None
  | (n, v) :: rest => if String.eqb n name then Some v else URLSearchParams_get rest name
  end.

Definition URLSearchParams_names (params : URLSearchParams) : list string :=
  map fst params.

(** ** JSON values *)

(** The values [JSON.parse] produces and [JSON.stringify] consumes, with
    [undefined] for an absent property.  Numbers are the integer-valued
    ones.  An object is the list of its own properties. *)
Inductive JSValue : Type :=
| JUndefined
| JNull
| JBool (b : bool)
| JNumber (n : Z)
| JString (s : string)
| JArray (items : list JSValue)
| JObject (props : list (string * JSValue)).

Fixpoint own_property (props : list (string * JSValue)) (key : string) : option JSValue :=
  match props with
  | [] => None
  | (k, v) :: rest => if String.eqb k key then Some v else own_property rest key
  end.

Definition has_property (v : JSValue) (key : string) : bool :=
  match v with
  | JObject props => match own_property props key with Some _ => true | None => false end
  | _ => false
  end.

(** [v.salt]: reading a property that no built-in prototype defines.
    Reading from [null] or [undefined] throws a [TypeError]; an object
    yields its own property or [undefined]; every other value yields
    [undefined]. *)
Definition read_property (v : JSValue) (key : string) : result JSValue :=
  match v with
  | JUndefined => Throw (TypeError ("Cannot read properties of undefined (reading '" ++ key ++ "')"))
  | JNull => Throw (TypeError ("Cannot read properties of null (reading '" ++ key ++ "')"))
  | JObject props =>
      Return (match own_property props key with Some x => x | None => JUndefined end)
  | _ => Return JUndefined
  end.

End JS.

(* ===================================================================== *)
(** * The world the wallet code runs in *)
(* ===================================================================== *)

Module Env.
Import JS.

(** The entropy source behind [randomBytes] and key generation: an
    arbitrary infinite tape of bytes and a read position. *)
Record Entropy : Type := mkEntropy {
  tape : nat -> byte;
  cursor : nat
}.

(** [PublicKey] of @mysten/sui.js/cryptography: the code only calls
    [toSuiBytes()], the canonical byte encoding of the key. *)
Record PublicKey : Type := mkPublicKey {
  toSuiBytes : list byte
}.

(** The [init] argument of [fetch]. *)
Record RequestInit : Type := mkRequestInit {
  method : string;
  headers : list (string * string);
  body : string
}.

(** A [Response]: the code only calls [json()], which yields the parsed
    body or rejects. *)
Record Response : Type := mkResponse {
  json : result JSValue
}.

(** A parsed [URL]: the code only reads [hash]. *)
Record URL : Type := mkURL {
  hash : string
}.

(** The argument of [Browser.identity.launchWebAuthFlow]. *)
Record WebAuthFlowDetails : Type := mkWebAuthFlowDetails {
  url : string;
  interactive : bool
}.

(** An entry of [zkProviderDataMap] (./providers). *)
Module Providers.
Record ZkProviderData : Type := mkZkProviderData {
  clientID : string;
  url : string
}.
End Providers.

(** Everything the file imports.  The outcome fields say what the
    external party answers to a call; the calls themselves are recorded in
    the world's trace. *)
Class Platform : Type := {
  (** ./providers *)
  ZkProvider : Type;
  zkProviderDataMap : ZkProvider -> Providers.ZkProviderData;
  (** @mysten/sui.js/keypairs/ed25519 *)
  Ed25519Keypair : Type;
  Ed25519Keypair_generate : Entropy -> Ed25519Keypair * Entropy;
  getPublicKey : Ed25519Keypair -> PublicKey;
  (** @mysten/zklogin *)
  generateNonce : PublicKey -> Z -> Z -> string;
  (** JSON.stringify *)
  JSON_stringify : JSValue -> string;
  (** _src/shared/utils: what [fetchWithSentry(name, url, init)] settles with *)
  fetchWithSentry_outcome : string -> string -> RequestInit -> result Response;
  (** webextension-polyfill *)
  getRedirectURL : string;
  launchWebAuthFlow_outcome : WebAuthFlowDetails -> result string;
  (** the URL constructor *)
  URL_parse : string -> result URL
}.

(** The externally visible calls. *)
Inductive Event : Type :=
| FetchWithSentry (name : string) (url : string) (init : RequestInit)
| LaunchWebAuthFlow (details : WebAuthFlowDetails).

Record World : Type := mkWorld {
  entropy : Entropy;
  trace : list Event
}.

(** Computations: world in, completion and world out.  A throw keeps the
    world reached so far. *)
Definition M (A : Type) : Type := World -> result A * World.

#[global] Instance Monad_M : Monad M := {
  ret := fun _ a w => (Return a, w);
  bind := fun _ _ m k w =>
    match m w with
    | (Return a, w') => k a w'
    | (Throw e, w') => (Throw e, w')
    end
}.

Definition throw {A} (e : exn) : M A := fun w => (Throw e, w).

(** Settle with an outcome and record the call. *)
Definition external {A} (ev : Event) (outcome : result A) : M A :=
  fun w => (outcome, {| entropy := entropy w; trace := (trace w ++ [ev])%list |}).

(** Read [n] bytes off the tape. *)
Definition read_entropy (n : nat) (e : Entropy) : list byte * Entropy :=
  (map (fun i => tape e (cursor e + i)) (seq 0 n),
   {| tape := tape e; cursor := cursor e + n |}).

(** [randomBytes(n)] of @noble/hashes/utils. *)
Definition randomBytes (n : nat) (w : World) : list byte * World :=
  let (bytes, e) := read_entropy n (entropy w) in
  (bytes, {| entropy := e; trace := trace w |}).

(** A computation that cannot throw, as a computation of [M]. *)
Definition total {A} (f : World -> A * World) : M A :=
  fun w => let (a, w') := f w in (Return a, w').

Section Calls.
Context {P : Platform}.

(** [new Ed25519Keypair()] *)
Definition Ed25519Keypair_new (w : World) : Ed25519Keypair * World :=
  let (kp, e) := Ed25519Keypair_generate (entropy w) in
  (kp, {| entropy := e; trace := trace w |}).

(** [fetchWithSentry(name, url, init)] *)
Definition fetchWithSentry (name url : string) (init : RequestInit) : M Response :=
  external (FetchWithSentry name url init) (fetchWithSentry_outcome name url init).

(** [Browser.identity.launchWebAuthFlow(details)] *)
Definition launchWebAuthFlow (details : WebAuthFlowDetails) : M string :=
  external (LaunchWebAuthFlow details) (launchWebAuthFlow_outcome details).

(** [new URL(input)] *)
Definition URL_new (input : string) : M URL :=
  fun w => (URL_parse input, w).

(** [response.json()] *)
Definition Response_json (response : Response) : M JSValue :=
  fun w => (json response, w).

End Calls.

End Env.

(* ===================================================================== *)
(** * utils.ts *)
(* ===================================================================== *)

Module Zk.
Import JS Env.

(** The record [prepareZKLogin] returns. *)
Record Session {P : Platform} : Type := mkSession {
  ephemeralKeyPair : Ed25519Keypair;
  randomness : Z;
  nonce : string;
  maxEpoch : Z
}.

(** [prompt?: 'select_account' | 'consent'] *)
Inductive Prompt : Type := select_account | consent.

Definition Prompt_toString (p : Prompt) : string :=
  match p with
  | select_account => "select_account"
  | consent => "consent"
  end.

(** The argument object of [zkLogin]; an omitted property is [None]. *)
Module LoginArgs.
Record t {P : Platform} : Type := mk {
  provider : ZkProvider;
  nonce : option string;
  loginHint : option string;
  prompt : option Prompt
}.
End LoginArgs.

(** [keyClaimName?: 'sub' | 'email'] *)
Inductive KeyClaimName : Type := sub | email.

Definition KeyClaimName_toString (k : KeyClaimName) : string :=
  match k with
  | sub => "sub"
  | email => "email"
  end.

Module WalletInputs.
Record t : Type := mk {
  jwt : string;
  ephemeralPublicKey : PublicKey;
  maxEpoch : Z;
  jwtRandomness : Z;
  userSalt : Z;
  keyClaimName : option KeyClaimName
}.
End WalletInputs.

Definition saltRegistryUrl : string := "http://salt.api-devnet.mystenlabs.com".

Definition zkProofsServerUrl : string := "http://185.209.177.123:8000".

Definition json_headers : list (string * string) :=
  [("Content-Type", "application/json")].

Section Functions.
Context {P : Platform}.

(** [export function prepareZKLogin(currentEpoch: number)] *)
Definition prepareZKLogin (currentEpoch : Z) (w : World) : Session * World :=
  let maxEpoch := number_add currentEpoch 2 in
  let (ephemeralKeyPair, w1) := Ed25519Keypair_new w in
  let (bytes, w2) := randomBytes 16 w1 in
  let randomness := toBigIntBE bytes in
  let nonce := generateNonce (getPublicKey ephemeralKeyPair) maxEpoch randomness in
  ({| ephemeralKeyPair := ephemeralKeyPair;
      randomness := randomness;
      nonce := nonce;
      maxEpoch := maxEpoch |}, w2).

(** The string held by an optional string argument that tested truthy. *)
Definition string_of (o : option string) : string :=
  match o with Some s => s | None => EmptyString end.

(** [export async function zkLogin({ provider, nonce, loginHint, prompt })] *)
Definition zkLogin (args : LoginArgs.t) : M string :=
  nonce <- (if negb (truthy_opt (LoginArgs.nonce args))
            then bytes <- total (randomBytes 20) ;; ret (base64url_encode bytes)
            else ret (string_of (LoginArgs.nonce args))) ;;
  let clientID := Providers.clientID (zkProviderDataMap (LoginArgs.provider args)) in
  let url := Providers.url (zkProviderDataMap (LoginArgs.provider args)) in
  let params : URLSearchParams := [] in
  let params := URLSearchParams_append params "client_id" clientID in
  let params := URLSearchParams_append params "response_type" "id_token" in
  let params := URLSearchParams_append params "redirect_uri" getRedirectURL in
  let params := URLSearchParams_append params "scope" "openid email profile" in
  let params := URLSearchParams_append params "nonce" nonce in
  let params :=
    if truthy_opt (LoginArgs.loginHint args)
    then URLSearchParams_append params "login_hint" (string_of (LoginArgs.loginHint args))
    else params in
  let params :=
    match LoginArgs.prompt args with
    | Some p => URLSearchParams_append params "prompt" (Prompt_toString p)
    | None => params
    end in
  let authUrl := url ++ "?" ++ URLSearchParams_toString params in
  redirect <- launchWebAuthFlow {| Env.url := authUrl; interactive := true |} ;;
  responseURL <- URL_new redirect ;;
  let responseParams := URLSearchParams_new (replace "#" EmptyString (hash responseURL)) in
  let jwt := URLSearchParams_get responseParams "id_token" in
  if negb (truthy_opt jwt) then throw (Error "JWT is missing")
  else ret (string_of jwt).

(** [export async function fetchSalt(jwt: string): Promise<string>].
    The declared result type is not checked at run time: the function
    yields whatever value the [salt] property read produces. *)
Definition fetchSalt (jwt : string) : M JSValue :=
  response <- fetchWithSentry "fetchUserSalt" (saltRegistryUrl ++ "/get_salt")
                {| method := "POST";
                   headers := json_headers;
                   body := JSON_stringify (JObject [("token", JString jwt)]) |} ;;
  parsed <- Response_json response ;;
  (fun w => (read_property parsed "salt", w)).

(** [export async function createPartialZKSignature({ ... }: WalletInputs):
    Promise<PartialZkSignature>].  As for [fetchSalt], the result is the
    parsed body as it comes. *)
Definition createPartialZKSignature (inputs : WalletInputs.t) : M JSValue :=
  let keyClaimName :=
    match WalletInputs.keyClaimName inputs with
    | Some k => k
    | None => sub
    end in
  response <- fetchWithSentry "createZKProofs" (zkProofsServerUrl ++ "/test/zkp")
                {| method := "POST";
                   headers := json_headers;
                   body := JSON_stringify (JObject
                     [("jwt", JString (WalletInputs.jwt inputs));
                      ("eph_public_key",
                       JString (bigint_toString
                                  (toBigIntBE (toSuiBytes (WalletInputs.ephemeralPublicKey inputs)))));
                      ("max_epoch", JNumber (WalletInputs.maxEpoch inputs));
                      ("jwt_randomness", JString (bigint_toString (WalletInputs.jwtRandomness inputs)));
                      ("subject_pin", JString (bigint_toString (WalletInputs.userSalt inputs)));
                      ("key_claim_name", JString (KeyClaimName_toString keyClaimName))]) |} ;;
  Response_json response.

End Functions.

(** The fields [PartialZkSignature] declares. *)
Definition PartialZkSignature_fields : list string :=
  ["proof_points"; "address_seed"; "claims"; "header_base64"].

(** Shape check of a value against [PartialZkSignature]: every declared
    field is an own property. *)
Definition has_PartialZkSignature_fields (v : JSValue) : bool :=
  forallb (has_property v) PartialZkSignature_fields.

End Zk.

(* ===================================================================== *)
(** * The steps of [zkLogin], named *)
(* ===================================================================== *)

(** [zkLogin] is a single function in the source.  To state its
    properties, its three phases are given names here; [zkLogin_steps]
    below proves that [zkLogin] is their composition. *)
Module ZkSteps.
Import JS Env Zk.

Section Steps.
Context {P : Platform}.

(** The nonce sent to the provider: the caller's when it is truthy,
    otherwise the base64url encoding of 20 fresh random bytes. *)
Definition effective_nonce (supplied : option string) (w : World) : string * World :=
  if truthy_opt supplied then (string_of supplied, w)
  else let (bytes, w') := randomBytes 20 w in (base64url_encode bytes, w').

(** The pairs appended to [params], in order. *)
Definition authorization_params (provider : ZkProvider) (nonce : string)
    (loginHint : option string) (prompt : option Prompt) : URLSearchParams :=
  ([("client_id", Providers.clientID (zkProviderDataMap provider));
    ("response_type", "id_token");
    ("redirect_uri", getRedirectURL);
    ("scope", "openid email profile");
    ("nonce", nonce)]
   ++ (if truthy_opt loginHint then [("login_hint", string_of loginHint)] else [])
   ++ (match prompt with Some p => [("prompt", Prompt_toString p)] | None => [] end))%list.

(** The value of [authUrl]. *)
Definition authorization_url (provider : ZkProvider) (nonce : string)
    (loginHint : option string) (prompt : option Prompt) : string :=
  Providers.url (zkProviderDataMap provider) ++ "?" ++
  URLSearchParams_toString (authorization_params provider nonce loginHint prompt).

(** The value of [responseParams] for a redirect that parsed to
    [responseURL]. *)
Definition response_params (responseURL : URL) : URLSearchParams :=
  URLSearchParams_new (replace "#" EmptyString (hash responseURL)).

(** From the redirect string to the token or the throw. *)
Definition extract_token (redirect : string) : result string :=
  match URL_parse redirect with
  | Throw e => Throw e
  | Return responseURL =>
      match URLSearchParams_get (response_params responseURL) "id_token" with
      | Some (String c t) => Return (String c t)
      | _ => Throw (Error "JWT is missing")
      end
  end.

End Steps.

End ZkSteps.

(* ===================================================================== *)
(** * LoginSession orchestration *)
(* ===================================================================== *)

Module Orchestration.

(** Modelled from the spec: the failure taxonomy of the two token-bearing
    steps (sections 4.4, 4.5 and 7); the orchestrating code is not part of
    utils.ts. *)
Inductive ErrorKind : Type := NetworkError | ServiceError | TimeoutError.

(** Modelled from the spec: the stage a failure comes from ("with enough
    context (stage, underlying cause)", section 7); the orchestrating code
    is not part of utils.ts. *)
Inductive Stage : Type := SaltResolution | ProofAssembly.

(** Modelled from the spec: a failure of the attempt carries its stage and
    cause; the orchestrating code is not part of utils.ts. *)
Record Failure : Type := mkFailure {
  stage : Stage;
  cause : ErrorKind
}.

(** Modelled from the spec: the outcome of one external call, or of the
    attempt as a whole; the orchestrating code is not part of utils.ts. *)
Inductive Outcome (A : Type) : Type :=
| Succeeded (a : A)
| Failed (f : Failure).
Arguments Succeeded {A} a.
Arguments Failed {A} f.

(** Modelled from the spec: what a completed login hands to the caller,
    the resolved salt together with the assembled signature; the
    orchestrating code is not part of utils.ts. *)
Record CompletedLogin (Salt Signature : Type) : Type := mkCompletedLogin {
  salt : Salt;
  signature : Signature
}.
Arguments mkCompletedLogin {Salt Signature} salt signature.
Arguments salt {Salt Signature} c.
Arguments signature {Salt Signature} c.

(** Which of the two concurrent calls settled first. *)
Inductive Settled : Type := SaltFirst | ProofFirst.

(** Modelled from the spec: the LoginSession orchestration of section 4.6
    and 5, whose code is not part of utils.ts.  Salt resolution and proof
    assembly are issued for the same token and both awaited; the attempt
    is complete only when both succeeded; otherwise it fails with the
    first failure to arrive. *)
Definition completeLogin {Salt Signature : Type}
    (saltOutcome : Outcome Salt) (proofOutcome : Outcome Signature)
    (order : Settled) : Outcome (CompletedLogin Salt Signature) :=
  match saltOutcome, proofOutcome with
  | Succeeded s, Succeeded p => Succeeded (mkCompletedLogin s p)
  | Failed f, Succeeded _ => Failed f
  | Succeeded _, Failed f => Failed f
  | Failed fs, Failed fp =>
      match order with
      | SaltFirst => Failed fs
      | ProofFirst => Failed fp
      end
  end.

End Orchestration.

(* ===================================================================== *)
(** * A concrete platform, for evaluating the embedding on examples *)
(* ===================================================================== *)

Module Demo.
Import JS Env Zk.

Inductive Provider : Type := google | twitch.

Definition providers (p : Provider) : Providers.ZkProviderData :=
  match p with
  | google =>
      {| Providers.clientID := "wallet-client.apps.googleusercontent.com";
         Providers.url := "https://accounts.google.com/o/oauth2/v2/auth" |}
  | twitch =>
      {| Providers.clientID := "wallet-client-twitch";
         Providers.url := "https://id.twitch.tv/oauth2/authorize" |}
  end.

(** A stand-in for key generation: 32 bytes of entropy are the secret
    seed and, under the Ed25519 flag byte [0x00], the public key. *)
Definition keygen (e : Entropy) : list byte * Entropy := read_entropy 32 e.

Definition public_of (seed : list byte) : PublicKey :=
  {| toSuiBytes := x00 :: seed |}.

(** A stand-in for the nonce hash: any function of the three inputs. *)
Definition nonce_of (pk : PublicKey) (maxEpoch randomness : Z) : string :=
  base64url_encode (toBufferBE (toBigIntBE (toSuiBytes pk) + maxEpoch + randomness) 20).

Definition quoted (s : string) : string :=
  String (ascii_of_nat 34) (s ++ String (ascii_of_nat 34) EmptyString).

(** A stand-in for [JSON.stringify], without string escaping. *)
Fixpoint stringify (v : JSValue) : string :=
  match v with
  | JUndefined => "undefined"
  | JNull => "null"
  | JBool true => "true"
  | JBool false => "false"
  | JNumber n => bigint_toString n
  | JString s => quoted s
  | JArray items => "[" ++ String.concat "," (map stringify items) ++ "]"
  | JObject props =>
      "{" ++ String.concat ","
               (map (fun p : string * JSValue =>
                       let (k, x) := p in quoted k ++ ":" ++ stringify x)
                    props) ++ "}"
  end.

(** A stand-in for the URL parser: the hash is the input from its first
    [#] on, and empty when nothing follows the [#]. *)
Fixpoint hash_of (input : string) : string :=
  match input with
  | EmptyString => EmptyString
  | String c rest =>
      if Ascii.eqb c "#" then (if truthy rest then input else EmptyString)
      else hash_of rest
  end.

Definition redirectURL : string := "https://abcdefghijklmnopabcdefghijklmnop.chromiumapp.org/".

(** The platform, for a given behaviour of the network and of the
    identity provider. *)
Definition platform
    (network : string -> string -> RequestInit -> result Response)
    (identityProvider : WebAuthFlowDetails -> result string) : Platform :=
  {| ZkProvider := Provider;
     zkProviderDataMap := providers;
     Ed25519Keypair := list byte;
     Ed25519Keypair_generate := keygen;
     getPublicKey := public_of;
     generateNonce := nonce_of;
     JSON_stringify := stringify;
     fetchWithSentry_outcome := network;
     getRedirectURL := redirectURL;
     launchWebAuthFlow_outcome := identityProvider;
     URL_parse := fun input => Return {| hash := hash_of input |} |}.

(** A network whose every response has the given JSON body. *)
Definition answering (v : JSValue) : string -> string -> RequestInit -> result Response :=
  fun _ _ _ => Return {| json := Return v |}.

(** An identity provider that redirects to the given URI. *)
Definition redirecting (uri : string) : WebAuthFlowDetails -> result string :=
  fun _ => Return uri.

(** A user closing the interactive window. *)
Definition aborting : WebAuthFlowDetails -> result string :=
  fun _ => Throw (Error "The user did not approve access.").

Definition tape0 (i : nat) : byte := byte_of_Z (Z.of_nat i * 37 + 11).

Definition world0 : World :=
  {| entropy := {| tape := tape0; cursor := 0 |}; trace := [] |}.

Definition key0 : PublicKey :=
  public_of (fst (read_entropy 32 (entropy world0))).

Definition inputs0 : WalletInputs.t :=
  {| WalletInputs.jwt := "eyJhbGciOiJSUzI1NiJ9.eyJzdWIiOiJ1c2VyLTEyMyJ9.c2ln";
     WalletInputs.ephemeralPublicKey := key0;
     WalletInputs.maxEpoch := 12;
     WalletInputs.jwtRandomness := 100681567828351849884072155819400689117;
     WalletInputs.userSalt := 999;
     WalletInputs.keyClaimName := None |}.

(** A registry that answers [{"salt":"12345"}], a proof service that
    answers a full signature, a provider that redirects with a token. *)
Definition signature0 : JSValue :=
  JObject
    [("proof_points",
      JObject [("pi_a", JArray [JString "1"; JString "2"; JString "1"]);
               ("pi_b", JArray [JArray [JString "3"; JString "4"];
                                JArray [JString "5"; JString "6"];
                                JArray [JString "1"; JString "0"]]);
               ("pi_c", JArray [JString "7"; JString "8"; JString "1"])]);
     ("address_seed", JString "4626391499238376561");
     ("claims",
      JArray [JObject [("name", JString "iss");
                       ("value_base64", JString "yJpc3MiOiJodHRwczovL2FjY291bnRzLmdvb2dsZS5jb20iLC");
                       ("index_mod_4", JNumber 1)]]);
     ("header_base64", JString "eyJhbGciOiJSUzI1NiJ9")].

Definition services (name url : string) (init : RequestInit) : result Response :=
  if String.eqb name "fetchUserSalt"
  then Return {| json := Return (JObject [("salt", JString "12345")]) |}
  else Return {| json := Return signature0 |}.

Definition token0 : string := "eyJhbGciOiJSUzI1NiJ9.eyJzdWIiOiJ1c2VyLTEyMyJ9.c2ln".

Definition wallet : Platform :=
  platform services
    (redirecting (redirectURL ++ "#id_token=" ++ token0 ++ "&authuser=0&prompt=none")).

(** The provider redirects with the fragment [state=abc]: no token. *)
Definition wallet_without_token : Platform :=
  platform services (redirecting (redirectURL ++ "#state=abc")).

(** Both services answer the empty object. *)
Definition wallet_with_empty_answers : Platform :=
  platform (answering (JObject [])) aborting.

End Demo.

(* ===================================================================== *)
(** * Character classes of the strings the code puts on the wire *)
(* ===================================================================== *)

Module Wire.
Import JS.

(** The characters [base64url.encode] can emit. *)
Definition is_base64url_char (c : ascii) : bool :=
  let n := N_of_ascii c in
  ((48 <=? n) && (n <=? 57) || (65 <=? n) && (n <=? 90) || (97 <=? n) && (n <=? 122)
   || (n =? 45) || (n =? 95))%N.

(** The characters a serialized query string can hold: the bytes the
    serializer leaves alone, [+] for a space, [%] and hexadecimal digits
    for an escaped byte, and the separators [&] and [=]. *)
Definition is_query_char (c : ascii) : bool :=
  is_form_safe c || Ascii.eqb c "+" || Ascii.eqb c "%" || Ascii.eqb c "&" || Ascii.eqb c "=".

(** [inputs] with another ephemeral public key. *)
Definition with_key (inputs : Zk.WalletInputs.t) (key : Env.PublicKey) : Zk.WalletInputs.t :=
  {| Zk.WalletInputs.jwt := Zk.WalletInputs.jwt inputs;
     Zk.WalletInputs.ephemeralPublicKey := key;
     Zk.WalletInputs.maxEpoch := Zk.WalletInputs.maxEpoch inputs;
     Zk.WalletInputs.jwtRandomness := Zk.WalletInputs.jwtRandomness inputs;
     Zk.WalletInputs.userSalt := Zk.WalletInputs.userSalt inputs;
     Zk.WalletInputs.keyClaimName := Zk.WalletInputs.keyClaimName inputs |}.

End Wire.

(* ===================================================================== *)
(** * More behaviours of the outside world, for examples *)
(* ===================================================================== *)

Module Scenarios.
Import JS Env Zk Demo.

(** The provider redirects with an empty [id_token] followed by a second,
    non-empty one. *)
Definition wallet_with_two_tokens : Platform :=
  platform services (redirecting (redirectURL ++ "#state=1&id_token=&id_token=abc")).

(** The provider reports its error in the query, not in the fragment. *)
Definition wallet_without_fragment : Platform :=
  platform services (redirecting (redirectURL ++ "?error=access_denied")).


(** The provider starts the fragment with two [?]. *)
Definition wallet_with_two_question_marks : Platform :=
  platform services (redirecting (redirectURL ++ "#??id_token=abc&state=1")).

(** The user closes the window. *)
Definition wallet_aborted : Platform :=
  platform services aborting.

(** The registry is unreachable. *)
Definition unreachable : string -> string -> RequestInit -> result Response :=
  fun _ _ _ => Throw (TypeError "Failed to fetch").

Definition wallet_offline : Platform :=
  platform unreachable aborting.

(** The services answer with a body that is not JSON. *)
Definition not_json : string -> string -> RequestInit -> result Response :=
  fun _ _ _ => Return {| json := Throw (SyntaxError "Unexpected token < in JSON at position 0") |}.

Definition wallet_behind_proxy : Platform :=
  platform not_json aborting.

(** Wallet inputs that carry the randomness of the session prepared in
    [world0], and a negative salt. *)
Definition inputs1 : WalletInputs.t :=
  {| WalletInputs.jwt := token0;
     WalletInputs.ephemeralPublicKey := key0;
     WalletInputs.maxEpoch := 12;
     WalletInputs.jwtRandomness := 228382956295700076833333809574381924822;
     WalletInputs.userSalt := -5;
     WalletInputs.keyClaimName := Some email |}.

End Scenarios.

(* ===================================================================== *)
(** * Facts about the built-ins *)
(* ===================================================================== *)

Section BigIntFacts.
Import JS.

Lemma byte_val_range (b : byte) : (0 <= byte_val b < 256)%Z.
Proof.
  unfold byte_val. pose proof (Byte.to_N_bounded b). lia.
Qed.

Lemma byte_of_Z_val (b : byte) (q : Z) : byte_of_Z (q * 256 + byte_val b) = b.
Proof.
  unfold byte_of_Z.
  replace ((q * 256 + byte_val b) mod 256)%Z with (byte_val b).
  - unfold byte_val. rewrite N2Z.id, Byte.of_to_N. reflexivity.
  - rewrite Z.add_comm, Z.mod_add by lia.
    symmetry. apply Z.mod_small, byte_val_range.
Qed.

Lemma toBigIntBE_snoc (buf : list byte) (b : byte) :
  toBigIntBE (buf ++ [b]) = (toBigIntBE buf * 256 + byte_val b)%Z.
Proof.
  unfold toBigIntBE. rewrite fold_left_app. reflexivity.
Qed.

Lemma toBigIntBE_nonneg (buf : list byte) : (0 <= toBigIntBE buf)%Z.
Proof.
  induction buf as [|b buf IH] using rev_ind.
  - cbn. lia.
  - rewrite toBigIntBE_snoc. pose proof (byte_val_range b). lia.
Qed.

Lemma toBigIntBE_bound (buf : list byte) :
  (toBigIntBE buf < 256 ^ Z.of_nat (List.length buf))%Z.
Proof.
  induction buf as [|b buf IH] using rev_ind.
  - cbn. lia.
  - rewrite toBigIntBE_snoc, length_app. cbn [List.length].
    replace (Z.of_nat (List.length buf + 1)) with (Z.succ (Z.of_nat (List.length buf))) by lia.
    rewrite Z.pow_succ_r by lia.
    pose proof (byte_val_range b). lia.
Qed.

(** Writing the integer of a buffer back on as many bytes gives the
    buffer. *)
Lemma toBufferBE_toBigIntBE (buf : list byte) :
  toBufferBE (toBigIntBE buf) (List.length buf) = buf.
Proof.
  induction buf as [|b buf IH] using rev_ind.
  - reflexivity.
  - rewrite length_app, Nat.add_comm. cbn [List.length Nat.add toBufferBE].
    rewrite toBigIntBE_snoc, byte_of_Z_val.
    replace ((toBigIntBE buf * 256 + byte_val b) / 256)%Z with (toBigIntBE buf).
    + rewrite IH. reflexivity.
    + rewrite Z.add_comm, Z.div_add by lia.
      rewrite Z.div_small by apply byte_val_range. reflexivity.
Qed.

(** A leading zero byte does not show in the integer: the byte length is
    what restores it. *)
Lemma toBigIntBE_leading_zero (buf : list byte) :
  toBigIntBE (x00 :: buf) = toBigIntBE buf.
Proof. reflexivity. Qed.

Lemma to_int_not_nil (z : Z) :
  Z.to_int z <> Decimal.Pos Decimal.Nil /\ Z.to_int z <> Decimal.Neg Decimal.Nil.
Proof.
  destruct z as [|p|p]; cbn; split; try discriminate;
    intros H; injection H as H; exact (DecimalPos.Unsigned.to_uint_nonnil p H).
Qed.

(** Reading the decimal string of a bigint gives the bigint back. *)
Lemma BigInt_parse_toString (z : Z) : BigInt_parse (bigint_toString z) = Some z.
Proof.
  unfold BigInt_parse, bigint_toString.
  destruct (to_int_not_nil z) as [Hp Hn].
  rewrite NilZero.isi by assumption.
  cbn. rewrite DecimalZ.of_to. reflexivity.
Qed.

Lemma string_of_uint_digits (d : Decimal.uint) :
  all_chars is_decimal_digit (NilEmpty.string_of_uint d) = true.
Proof.
  induction d; cbn; auto.
Qed.

(** The decimal string of a non-negative bigint consists of digits only. *)
Lemma bigint_toString_digits (z : Z) :
  (0 <= z)%Z -> all_chars is_decimal_digit (bigint_toString z) = true.
Proof.
  intros Hz. unfold bigint_toString.
  destruct z as [|p|p]; [reflexivity| |lia].
  cbn. destruct (Pos.to_uint p) eqn:E; try apply string_of_uint_digits.
  reflexivity.
Qed.

Lemma truthy_bigint_toString (z : Z) : truthy (bigint_toString z) = true.
Proof.
  unfold bigint_toString.
  destruct z as [|p|p]; cbn; try reflexivity.
  destruct (Pos.to_uint p); reflexivity.
Qed.

End BigIntFacts.

Section FormFacts.
Import JS.

Lemma all_chars_app (p : ascii -> bool) (a b : string) :
  all_chars p (a ++ b) = all_chars p a && all_chars p b.
Proof.
  induction a as [|c a IH]; cbn.
  - reflexivity.
  - rewrite IH. apply andb_assoc.
Qed.

Lemma all_chars_weaken (p q : ascii -> bool) (s : string) :
  (forall c, p c = true -> q c = true) ->
  all_chars p s = true -> all_chars q s = true.
Proof.
  intros Hpq. induction s as [|c s IH]; cbn; [reflexivity|].
  rewrite !andb_true_iff. intros [Hc Hs]. auto.
Qed.

Ltac each_byte c := destruct c as [[] [] [] [] [] [] [] []].

(** The serializer emits neither [&] nor [=]. *)
Lemma form_urlencode_byte_clean (c : ascii) :
  all_chars (fun x => negb (Ascii.eqb x "&") && negb (Ascii.eqb x "="))
    (form_urlencode_byte c) = true.
Proof. each_byte c; reflexivity. Qed.

Lemma form_urlencode_clean (s : string) :
  all_chars (fun x => negb (Ascii.eqb x "&") && negb (Ascii.eqb x "="))
    (form_urlencode s) = true.
Proof.
  induction s as [|c s IH]; cbn [form_urlencode]; [reflexivity|].
  rewrite all_chars_app, form_urlencode_byte_clean, IH. reflexivity.
Qed.

Lemma form_urlencode_no_amp (s : string) :
  all_chars (fun x => negb (Ascii.eqb x "&")) (form_urlencode s) = true.
Proof.
  apply all_chars_weaken with (2 := form_urlencode_clean s).
  intros c H. apply andb_true_iff in H. tauto.
Qed.

Lemma form_urlencode_no_eq (s : string) :
  all_chars (fun x => negb (Ascii.eqb x "=")) (form_urlencode s) = true.
Proof.
  apply all_chars_weaken with (2 := form_urlencode_clean s).
  intros c H. apply andb_true_iff in H. tauto.
Qed.

(** Decoding undoes the encoding of one byte, whatever follows. *)
Lemma form_urldecode_byte (c : ascii) (r : string) :
  form_urldecode (form_urlencode_byte c ++ r) = String c (form_urldecode r).
Proof. each_byte c; reflexivity. Qed.

Lemma form_urldecode_encode (s : string) :
  form_urldecode (form_urlencode s) = s.
Proof.
  induction s as [|c s IH]; cbn [form_urlencode]; [reflexivity|].
  rewrite form_urldecode_byte, IH. reflexivity.
Qed.

Lemma split_on_clean (sep : ascii) (a : string) :
  all_chars (fun x => negb (Ascii.eqb x sep)) a = true ->
  split_on sep a = [a].
Proof.
  induction a as [|c a IH]; cbn; [reflexivity|].
  rewrite andb_true_iff, negb_true_iff. intros [Hc Ha].
  rewrite Hc, (IH Ha). reflexivity.
Qed.

Lemma split_on_app (sep : ascii) (a r : string) :
  all_chars (fun x => negb (Ascii.eqb x sep)) a = true ->
  split_on sep (a ++ String sep r) = a :: split_on sep r.
Proof.
  induction a as [|c a IH]; cbn.
  - intros _. rewrite Ascii.eqb_refl. reflexivity.
  - rewrite andb_true_iff, negb_true_iff. intros [Hc Ha].
    rewrite Hc, (IH Ha). reflexivity.
Qed.

Lemma split_pair_app (n v : string) :
  all_chars (fun x => negb (Ascii.eqb x "=")) n = true ->
  split_pair (n ++ String "=" v) = (n, v).
Proof.
  induction n as [|c n IH]; cbn.
  - reflexivity.
  - rewrite andb_true_iff, negb_true_iff. intros [Hc Hn].
    rewrite Hc, (IH Hn). reflexivity.
Qed.

Lemma truthy_pair (n v : string) :
  truthy (form_urlencode n ++ "=" ++ form_urlencode v) = true.
Proof. destruct (form_urlencode n); reflexivity. Qed.

(** One serialized pair parses back to the pair. *)
Lemma parse_pair (n v : string) :
  split_pair (form_urlencode n ++ "=" ++ form_urlencode v) =
  (form_urlencode n, form_urlencode v).
Proof. apply split_pair_app, form_urlencode_no_eq. Qed.

Lemma pair_no_amp (n v : string) :
  all_chars (fun x => negb (Ascii.eqb x "&"))
    (form_urlencode n ++ "=" ++ form_urlencode v) = true.
Proof.
  rewrite all_chars_app, form_urlencode_no_amp. cbn.
  apply form_urlencode_no_amp.
Qed.

(** The urlencoded parser inverts the serializer: the query string built
    by [toString] carries exactly the appended pairs, in order. *)
Lemma urlencoded_parse_toString (params : URLSearchParams) :
  urlencoded_parse (URLSearchParams_toString params) = params.
Proof.
  unfold urlencoded_parse, URLSearchParams_toString.
  induction params as [|[n v] rest IH]; [reflexivity|].
  destruct rest as [|q rest].
  - cbn [map String.concat fst snd].
    rewrite split_on_clean by apply pair_no_amp.
    cbn [flat_map]. rewrite truthy_pair, parse_pair, !form_urldecode_encode.
    reflexivity.
  - change (String.concat "&" (map (fun p => form_urlencode (fst p) ++ "=" ++ form_urlencode (snd p))
                                   ((n, v) :: q :: rest)))
      with ((form_urlencode n ++ "=" ++ form_urlencode v) ++
            String "&" (String.concat "&"
                          (map (fun p => form_urlencode (fst p) ++ "=" ++ form_urlencode (snd p))
                               (q :: rest)))).
    rewrite split_on_app by apply pair_no_amp.
    cbn [flat_map]. rewrite IH.
    rewrite truthy_pair, parse_pair, !form_urldecode_encode.
    reflexivity.
Qed.

(** The serialized query never starts with [?] ... *)
Lemma URLSearchParams_toString_head (params : URLSearchParams) :
  match URLSearchParams_toString params with
  | EmptyString => True
  | String c _ => c <> "?"%char
  end.
Proof.
  destruct params as [|[n v] rest]; [exact I|].
  unfold URLSearchParams_toString.
  destruct n as [|c n].
  - destruct rest; cbn; discriminate.
  - destruct rest; cbn [map String.concat fst snd form_urlencode];
      each_byte c; cbn; discriminate.
Qed.

(** ... so the constructor reads it as the parser does. *)
Lemma URLSearchParams_new_toString (params : URLSearchParams) :
  URLSearchParams_new (URLSearchParams_toString params) = params.
Proof.
  rewrite <- (urlencoded_parse_toString params) at 2.
  pose proof (URLSearchParams_toString_head params) as H.
  unfold URLSearchParams_new.
  destruct (URLSearchParams_toString params) as [|c s]; [reflexivity|].
  each_byte c; try reflexivity. congruence.
Qed.

Lemma URLSearchParams_get_none (params : URLSearchParams) (name : string) :
  URLSearchParams_get params name = None <-> ~ In name (URLSearchParams_names params).
Proof.
  induction params as [|[n v] rest IH]; cbn.
  - tauto.
  - destruct (String.eqb_spec n name) as [->|Hn].
    + split; [discriminate|]. intros H. exfalso. apply H. now left.
    + rewrite IH. tauto.
Qed.

End FormFacts.

Section EntropyFacts.
Import JS Env.

Lemma read_entropy_length (n : nat) (e : Entropy) :
  List.length (fst (read_entropy n e)) = n.
Proof.
  unfold read_entropy. cbn. rewrite length_map, length_seq. reflexivity.
Qed.

Lemma randomBytes_length (n : nat) (w : World) :
  List.length (fst (randomBytes n w)) = n.
Proof.
  unfold randomBytes.
  pose proof (read_entropy_length n (entropy w)) as H.
  destruct (read_entropy n (entropy w)). exact H.
Qed.

(** [randomBytes] leaves the trace alone. *)
Lemma randomBytes_trace (n : nat) (w : World) :
  trace (snd (randomBytes n w)) = trace w.
Proof.
  unfold randomBytes. destruct (read_entropy n (entropy w)). reflexivity.
Qed.

(** Twenty bytes encode to twenty-seven characters. *)
Lemma base64url_encode_20 (bytes : list byte) :
  List.length bytes = 20 -> String.length (base64url_encode bytes) = 27.
Proof.
  intros H.
  do 20 (destruct bytes as [|? bytes]; [discriminate|]).
  destruct bytes; [reflexivity|discriminate].
Qed.

Lemma truthy_length (s : string) : String.length s <> 0 -> truthy s = true.
Proof. destruct s; [intros H; now elim H|reflexivity]. Qed.

End EntropyFacts.

(* ===================================================================== *)
(** * Properties of the pipeline *)
(* ===================================================================== *)

Section SessionProperties.
Import JS Env Zk.
Context {P : Platform}.

(** X1.  The randomness of a session is the integer of 16 random bytes:
    it lies in [0, 2^128), whatever the entropy source yields. *)
Lemma prepareZKLogin_randomness_range (currentEpoch : Z) (w : World) :
  (0 <= randomness (fst (prepareZKLogin currentEpoch w)) < 2 ^ 128)%Z.
Proof.
  unfold prepareZKLogin.
  destruct (Ed25519Keypair_new w) as [kp w1].
  pose proof (randomBytes_length 16 w1) as Hlen.
  destruct (randomBytes 16 w1) as [bytes w2]. cbn [fst randomness] in *.
  pose proof (toBigIntBE_nonneg bytes).
  pose proof (toBigIntBE_bound bytes) as Hb. rewrite Hlen in Hb.
  change (256 ^ Z.of_nat 16)%Z with (2 ^ 128)%Z in Hb. lia.
Qed.

(** [prepareZKLogin] makes no external call. *)
Lemma prepareZKLogin_trace (currentEpoch : Z) (w : World) :
  trace (snd (prepareZKLogin currentEpoch w)) = trace w.
Proof.
  unfold prepareZKLogin, Ed25519Keypair_new.
  destruct (Ed25519Keypair_generate (entropy w)) as [kp e].
  match goal with |- context [randomBytes 16 ?v] =>
    pose proof (randomBytes_trace 16 v) as H; destruct (randomBytes 16 v) end.
  exact H.
Qed.

(** C1.  The session returned by [prepareZKLogin] satisfies
    [nonce = generateNonce(publicKey, maxEpoch, randomness)] over its own
    fields, for every [currentEpoch] and every state of the entropy
    source; hence two sessions that agree on the ephemeral public key,
    on [maxEpoch] and on the randomness carry the same nonce. *)
Theorem prepareZKLogin_nonce_binding (currentEpoch : Z) (w : World) :
  let s := fst (prepareZKLogin currentEpoch w) in
  nonce s = generateNonce (getPublicKey (ephemeralKeyPair s)) (maxEpoch s) (randomness s)
  /\ forall (currentEpoch' : Z) (w' : World),
       let s' := fst (prepareZKLogin currentEpoch' w') in
       getPublicKey (ephemeralKeyPair s') = getPublicKey (ephemeralKeyPair s) ->
       maxEpoch s' = maxEpoch s ->
       randomness s' = randomness s ->
       nonce s' = nonce s.
Proof.
  assert (bound : forall c v,
             let s := fst (prepareZKLogin c v) in
             nonce s = generateNonce (getPublicKey (ephemeralKeyPair s)) (maxEpoch s) (randomness s)).
  { intros c v. unfold prepareZKLogin.
    destruct (Ed25519Keypair_new v) as [kp v1].
    destruct (randomBytes 16 v1) as [bytes v2]. reflexivity. }
  cbv zeta in *. split.
  - apply bound.
  - intros c' w' Hk He Hr. rewrite !bound. congruence.
Qed.

(** Integers of magnitude up to [2^53] are their own rounding. *)
Lemma round_to_double_exact (z : Z) :
  (Z.abs z <= 2 ^ 53)%Z -> round_to_double z = z.
Proof.
  intros H.
  assert (H53 : (2 ^ 53 = 9007199254740992)%Z) by reflexivity.
  destruct (Z.eq_dec (Z.abs z) (2 ^ 53)) as [Heq|Hne].
  - rewrite H53 in Heq.
    assert (Hz : z = 9007199254740992%Z \/ z = (-9007199254740992)%Z) by lia.
    destruct Hz as [-> | ->]; vm_compute; reflexivity.
  - unfold round_to_double.
    destruct (Z.ltb_spec (Z.abs z) (2 ^ 53)) as [_|Hge]; [reflexivity|lia].
Qed.

(** C5, as the code has it.  For every integer [currentEpoch] with
    [0 <= currentEpoch <= 2^53 - 2], the [maxEpoch] of the session produced
    by [prepareZKLogin] is [currentEpoch + 2]: up to there the sum of the
    two doubles is exact. *)
Theorem prepareZKLogin_maxEpoch (currentEpoch : Z) (w : World) :
  (0 <= currentEpoch <= 2 ^ 53 - 2)%Z ->
  maxEpoch (fst (prepareZKLogin currentEpoch w)) = (currentEpoch + 2)%Z.
Proof.
  intros Hrange. unfold prepareZKLogin.
  destruct (Ed25519Keypair_new w) as [kp w1].
  destruct (randomBytes 16 w1) as [bytes w2]. cbn [fst maxEpoch].
  unfold number_add. apply round_to_double_exact.
  assert (H53 : (2 ^ 53 = 9007199254740992)%Z) by reflexivity.
  rewrite H53 in *. lia.
Qed.

End SessionProperties.

Section ServiceProperties.
Import JS Env Zk.
Context {P : Platform}.

Ltac run :=
  unfold fetchSalt, createPartialZKSignature, fetchWithSentry, external, Response_json;
  cbn [bind ret Monad_M].

(** What [fetchSalt] evaluates to, in terms of what the registry answers. *)
Lemma fetchSalt_outcome (jwt : string) (w : World) :
  fst (fetchSalt jwt w) =
  match fetchWithSentry_outcome "fetchUserSalt" (saltRegistryUrl ++ "/get_salt")
          {| method := "POST"; headers := json_headers;
             body := JSON_stringify (JObject [("token", JString jwt)]) |} with
  | Throw e => Throw e
  | Return response =>
      match json response with
      | Throw e => Throw e
      | Return parsed => read_property parsed "salt"
      end
  end.
Proof.
  run. destruct (fetchWithSentry_outcome _ _ _) as [response|e]; [|reflexivity].
  destruct (json response); reflexivity.
Qed.

(** What [createPartialZKSignature] evaluates to, in terms of what the
    proof service answers to the request it sends. *)
Lemma createPartialZKSignature_outcome (inputs : WalletInputs.t) (w : World) :
  exists init,
    trace (snd (createPartialZKSignature inputs w)) =
      (trace w ++ [FetchWithSentry "createZKProofs" (zkProofsServerUrl ++ "/test/zkp") init])%list
    /\ fst (createPartialZKSignature inputs w) =
       match fetchWithSentry_outcome "createZKProofs" (zkProofsServerUrl ++ "/test/zkp") init with
       | Throw e => Throw e
       | Return response => json response
       end.
Proof.
  run.
  match goal with
  | |- context [fetchWithSentry_outcome _ _ ?i] => exists i
  end.
  destruct (fetchWithSentry_outcome _ _ _) as [response|e].
  - destruct (json response); split; reflexivity.
  - split; reflexivity.
Qed.


(** C7.  [fetchSalt] performs a single POST to the salt registry with the
    JSON body [{"token": jwt}] and, when the registry answers with a JSON
    object that has a [salt] field, returns the value of that field. *)
Theorem fetchSalt_exchange (jwt : string) (w : World) :
  let init :=
    {| method := "POST";
       headers := [("Content-Type", "application/json")];
       body := JSON_stringify (JObject [("token", JString jwt)]) |} in
  trace (snd (fetchSalt jwt w)) =
    (trace w ++
     [FetchWithSentry "fetchUserSalt" "http://salt.api-devnet.mystenlabs.com/get_salt" init])%list
  /\ forall response props salt,
       fetchWithSentry_outcome "fetchUserSalt" "http://salt.api-devnet.mystenlabs.com/get_salt" init
         = Return response ->
       json response = Return (JObject props) ->
       own_property props "salt" = Some salt ->
       fst (fetchSalt jwt w) = Return salt.
Proof.
  cbv zeta. split.
  - run. destruct (fetchWithSentry_outcome _ _ _) as [response|e]; cbn; [|reflexivity].
    destruct (json response); reflexivity.
  - intros response props salt Hfetch Hjson Hsalt.
    rewrite fetchSalt_outcome.
    change (saltRegistryUrl ++ "/get_salt") with "http://salt.api-devnet.mystenlabs.com/get_salt".
    change json_headers with [("Content-Type", "application/json")].
    rewrite Hfetch, Hjson. cbn. rewrite Hsalt. reflexivity.
Qed.

(** C8, as the code has it.  [fetchSalt] does not validate the registry's
    answer.  When the request succeeds and the body parses, the result is
    the outcome of reading the [salt] property of the parsed value: for
    an object it is returned as it is, whatever its type, and it is
    [undefined] when the field is missing; the only parsed values that
    make [fetchSalt] fail are [null] and [undefined]. *)
Theorem fetchSalt_unvalidated (jwt : string) (w : World) (response : Response)
    (parsed : JSValue) :
  fetchWithSentry_outcome "fetchUserSalt" "http://salt.api-devnet.mystenlabs.com/get_salt"
    {| method := "POST";
       headers := [("Content-Type", "application/json")];
       body := JSON_stringify (JObject [("token", JString jwt)]) |} = Return response ->
  json response = Return parsed ->
  fst (fetchSalt jwt w) = read_property parsed "salt"
  /\ (forall props,
        parsed = JObject props ->
        fst (fetchSalt jwt w) =
        Return (match own_property props "salt" with Some x => x | None => JUndefined end))
  /\ (has_property parsed "salt" = false -> parsed <> JNull -> parsed <> JUndefined ->
      fst (fetchSalt jwt w) = Return JUndefined)
  /\ (is_return (fst (fetchSalt jwt w)) = false <-> parsed = JNull \/ parsed = JUndefined).
Proof.
  intros Hfetch Hjson.
  assert (E : fst (fetchSalt jwt w) = read_property parsed "salt").
  { rewrite fetchSalt_outcome.
    change (saltRegistryUrl ++ "/get_salt") with "http://salt.api-devnet.mystenlabs.com/get_salt".
    change json_headers with [("Content-Type", "application/json")].
    rewrite Hfetch, Hjson. reflexivity. }
  rewrite E. repeat split.
  - intros props ->. reflexivity.
  - intros Hmiss Hnull Hundef.
    destruct parsed; try reflexivity; try congruence.
    cbn in Hmiss |- *. destruct (own_property props "salt"); [discriminate|reflexivity].
  - destruct parsed; cbn; intros H; try discriminate; auto.
  - intros [-> | ->]; reflexivity.
Qed.

(** C9, as the code has it.  [createPartialZKSignature] returns the parsed
    body of the proof service's answer unchanged, with no shape check:
    the returned value has the fields of [PartialZkSignature] exactly when
    the answer has them. *)
Theorem createPartialZKSignature_unvalidated (inputs : WalletInputs.t) (w : World) :
  exists init,
    trace (snd (createPartialZKSignature inputs w)) =
      (trace w ++ [FetchWithSentry "createZKProofs" "http://185.209.177.123:8000/test/zkp" init])%list
    /\ forall response parsed,
         fetchWithSentry_outcome "createZKProofs" "http://185.209.177.123:8000/test/zkp" init
           = Return response ->
         json response = Return parsed ->
         fst (createPartialZKSignature inputs w) = Return parsed.
Proof.
  destruct (createPartialZKSignature_outcome inputs w) as [init [Htrace Hout]].
  exists init. split; [exact Htrace|].
  intros response parsed Hfetch Hjson.
  rewrite Hout.
  change (zkProofsServerUrl ++ "/test/zkp") with "http://185.209.177.123:8000/test/zkp".
  rewrite Hfetch. exact Hjson.
Qed.

End ServiceProperties.

Section LoginProperties.
Import JS Env Zk ZkSteps.
Context {P : Platform}.

Lemma effective_nonce_trace (supplied : option string) (w : World) :
  trace (snd (effective_nonce supplied w)) = trace w.
Proof.
  unfold effective_nonce. destruct (truthy_opt supplied); [reflexivity|].
  pose proof (randomBytes_trace 20 w) as H.
  destruct (randomBytes 20 w). exact H.
Qed.

(** [zkLogin] is the composition of its three phases: choose the nonce,
    launch the interactive flow on the authorization URL (recording the
    call), extract the token from the redirect. *)
Lemma zkLogin_steps (args : LoginArgs.t) (w : World) :
  let nw := effective_nonce (LoginArgs.nonce args) w in
  let details :=
    {| Env.url := authorization_url (LoginArgs.provider args) (fst nw)
                    (LoginArgs.loginHint args) (LoginArgs.prompt args);
       interactive := true |} in
  zkLogin args w =
  (match launchWebAuthFlow_outcome details with
   | Throw e => Throw e
   | Return redirect => extract_token redirect
   end,
   {| entropy := entropy (snd nw);
      trace := (trace w ++ [LaunchWebAuthFlow details])%list |}).
Proof.
  cbv zeta. rewrite <- (effective_nonce_trace (LoginArgs.nonce args) w).
  unfold zkLogin, effective_nonce, authorization_url, authorization_params,
    extract_token, response_params, launchWebAuthFlow, external, URL_new, throw, total,
    URLSearchParams_append.
  cbn [bind ret Monad_M].
  destruct (truthy_opt (LoginArgs.nonce args)); cbn [negb];
    [|destruct (randomBytes 20 w) as [bytes w1]];
    cbn [fst snd app];
    destruct (truthy_opt (LoginArgs.loginHint args));
    destruct (LoginArgs.prompt args); cbn [app];
    (destruct (launchWebAuthFlow_outcome _) as [redirect|e]; [|reflexivity]);
    (destruct (URL_parse redirect) as [u|e]; [|reflexivity]);
    (destruct (URLSearchParams_get _ _) as [[|c t]|]; reflexivity).
Qed.

Lemma zkLogin_trace (args : LoginArgs.t) (w : World) :
  trace (snd (zkLogin args w)) =
  (trace w ++
   [LaunchWebAuthFlow
      {| Env.url := authorization_url (LoginArgs.provider args)
                      (fst (effective_nonce (LoginArgs.nonce args) w))
                      (LoginArgs.loginHint args) (LoginArgs.prompt args);
         interactive := true |}])%list.
Proof. rewrite zkLogin_steps. reflexivity. Qed.

Lemma extract_token_cases (redirect : string) (responseURL : URL) :
  URL_parse redirect = Return responseURL ->
  extract_token redirect =
  match URLSearchParams_get (response_params responseURL) "id_token" with
  | Some (String c t) => Return (String c t)
  | _ => Throw (Error "JWT is missing")
  end.
Proof. intros H. unfold extract_token. rewrite H. reflexivity. Qed.

(** C3.  Once the provider has redirected and the redirect URI has
    parsed, [zkLogin] throws exactly when the fragment, read as query
    parameters, has no [id_token] field or its (first) [id_token] value
    is empty, the error being "JWT is missing"; and it returns [token]
    if and only if the [id_token] field is present with the non-empty
    value [token]. *)
Theorem zkLogin_token_extraction (args : LoginArgs.t) (w : World)
    (details : WebAuthFlowDetails) (redirect : string) (responseURL : URL) :
  trace (snd (zkLogin args w)) = (trace w ++ [LaunchWebAuthFlow details])%list ->
  launchWebAuthFlow_outcome details = Return redirect ->
  URL_parse redirect = Return responseURL ->
  let responseParams := URLSearchParams_new (replace "#" EmptyString (hash responseURL)) in
  let id_token := URLSearchParams_get responseParams "id_token" in
  (is_return (fst (zkLogin args w)) = false <->
     ~ In "id_token" (URLSearchParams_names responseParams) \/ id_token = Some EmptyString)
  /\ (is_return (fst (zkLogin args w)) = false ->
      fst (zkLogin args w) = Throw (Error "JWT is missing"))
  /\ (forall token,
        fst (zkLogin args w) = Return token <->
        id_token = Some token /\ token <> EmptyString).
Proof.
  intros Htrace Hflow Hurl. cbv zeta.
  rewrite zkLogin_trace in Htrace. apply app_inv_head in Htrace.
  injection Htrace as Hd.
  rewrite zkLogin_steps. cbv zeta. cbn [fst].
  rewrite Hd, Hflow, (extract_token_cases _ _ Hurl).
  unfold response_params.
  rewrite <- URLSearchParams_get_none.
  destruct (URLSearchParams_get _ "id_token") as [[|c t]|]; cbn; repeat split;
    try discriminate; try tauto; try congruence.
  - intros [H1 H2]. congruence.
  - intros [H|H]; discriminate.
  - intros [H1 H2]. congruence.
  - intros [H _]. discriminate.
Qed.

(** C6, as the code has it.  The authorization URL handed to the
    interactive flow is the provider's URL, a [?], and a query string that
    carries exactly [client_id] (the provider's configured client id),
    [response_type=id_token], [redirect_uri], [scope=openid email profile]
    and [nonce], followed by [login_hint] exactly when [loginHint] is
    provided and not empty, and by [prompt] exactly when [prompt] is
    provided. *)
Theorem zkLogin_authorization_request (args : LoginArgs.t) (w : World) :
  exists nonce query,
    trace (snd (zkLogin args w)) =
      (trace w ++
       [LaunchWebAuthFlow
          {| Env.url := Providers.url (zkProviderDataMap (LoginArgs.provider args))
                          ++ "?" ++ query;
             interactive := true |}])%list
    /\ (forall supplied, LoginArgs.nonce args = Some supplied ->
        supplied <> EmptyString -> nonce = supplied)
    /\ URLSearchParams_new query =
       ([("client_id", Providers.clientID (zkProviderDataMap (LoginArgs.provider args)));
         ("response_type", "id_token");
         ("redirect_uri", getRedirectURL);
         ("scope", "openid email profile");
         ("nonce", nonce)]
        ++ match LoginArgs.loginHint args with
           | Some (String c hint) => [("login_hint", String c hint)]
           | _ => []
           end
        ++ match LoginArgs.prompt args with
           | Some p => [("prompt", Prompt_toString p)]
           | None => []
           end)%list.
Proof.
  exists (fst (effective_nonce (LoginArgs.nonce args) w)).
  eexists. split; [|split].
  - rewrite zkLogin_trace. unfold authorization_url. reflexivity.
  - intros supplied Hn Hne. unfold effective_nonce. rewrite Hn.
    destruct supplied; [congruence|reflexivity].
  - rewrite URLSearchParams_new_toString. unfold authorization_params.
    destruct (LoginArgs.loginHint args) as [[|c hint]|]; reflexivity.
Qed.

(** C10.  When the [nonce] argument is omitted or empty, [zkLogin] goes on
    as if the caller had supplied the base64url encoding (27 characters)
    of the next 20 bytes of the entropy source: the authorization URL
    carries that value as its [nonce] parameter, and the outcome is that
    of the call with that nonce supplied, so no failure comes from the
    missing nonce.  The value depends on the entropy alone: no key pair
    and no epoch enters it. *)
Theorem zkLogin_fresh_nonce (args : LoginArgs.t) (w : World) :
  LoginArgs.nonce args = None \/ LoginArgs.nonce args = Some EmptyString ->
  let bytes := fst (randomBytes 20 w) in
  let fresh := base64url_encode bytes in
  List.length bytes = 20
  /\ String.length fresh = 27
  /\ (exists query,
        trace (snd (zkLogin args w)) =
          (trace w ++
           [LaunchWebAuthFlow
              {| Env.url := Providers.url (zkProviderDataMap (LoginArgs.provider args))
                              ++ "?" ++ query;
                 interactive := true |}])%list
        /\ URLSearchParams_get (URLSearchParams_new query) "nonce" = Some fresh)
  /\ zkLogin args w =
     zkLogin {| LoginArgs.provider := LoginArgs.provider args;
                LoginArgs.nonce := Some fresh;
                LoginArgs.loginHint := LoginArgs.loginHint args;
                LoginArgs.prompt := LoginArgs.prompt args |}
             (snd (randomBytes 20 w)).
Proof.
  intros Hn. cbv zeta.
  pose proof (randomBytes_length 20 w) as Hlen.
  pose proof (base64url_encode_20 _ Hlen) as Hfresh.
  assert (Hfalsy : truthy_opt (LoginArgs.nonce args) = false)
    by (destruct Hn as [-> | ->]; reflexivity).
  assert (Htruthy : truthy (base64url_encode (fst (randomBytes 20 w))) = true)
    by (apply truthy_length; rewrite Hfresh; discriminate).
  assert (Heff : effective_nonce (LoginArgs.nonce args) w =
                 (base64url_encode (fst (randomBytes 20 w)), snd (randomBytes 20 w))).
  { unfold effective_nonce. rewrite Hfalsy. destruct (randomBytes 20 w); reflexivity. }
  split; [exact Hlen|]. split; [exact Hfresh|]. split.
  - eexists. split.
    + rewrite zkLogin_trace, Heff. unfold authorization_url. reflexivity.
    + rewrite URLSearchParams_new_toString. reflexivity.
  - rewrite !zkLogin_steps. cbv zeta. cbn [LoginArgs.provider LoginArgs.nonce
      LoginArgs.loginHint LoginArgs.prompt].
    rewrite Heff. unfold effective_nonce at 1 2. cbn [truthy_opt string_of fst snd].
    rewrite Htruthy. cbn [fst snd].
    rewrite randomBytes_trace. reflexivity.
Qed.

End LoginProperties.

Section OrchestrationProperties.
Import Orchestration.
Context {Salt Signature : Type}.

(** C4.  The attempt is complete only when both salt resolution and proof
    assembly succeeded, and then it carries both results; when exactly one
    of them fails the attempt fails with that failure; every failure of
    the attempt is a failure of one of the two calls.  A lone salt or a
    lone signature is never a completed login. *)
Theorem completeLogin_both_or_failure
    (saltOutcome : Outcome Salt) (proofOutcome : Outcome Signature) (order : Settled) :
  (forall done,
     completeLogin saltOutcome proofOutcome order = Succeeded done <->
     saltOutcome = Succeeded (salt done) /\ proofOutcome = Succeeded (signature done))
  /\ (forall s f, saltOutcome = Succeeded s -> proofOutcome = Failed f ->
      completeLogin saltOutcome proofOutcome order = Failed f)
  /\ (forall f p, saltOutcome = Failed f -> proofOutcome = Succeeded p ->
      completeLogin saltOutcome proofOutcome order = Failed f)
  /\ (forall f, completeLogin saltOutcome proofOutcome order = Failed f ->
      saltOutcome = Failed f \/ proofOutcome = Failed f).
Proof.
  split; [|split; [|split]].
  - intros done. split.
    + destruct saltOutcome, proofOutcome, order; cbn; intros E;
        try discriminate; injection E as <-; split; reflexivity.
    + intros [-> ->]. destruct done. reflexivity.
  - intros s f -> ->. reflexivity.
  - intros f p -> ->. reflexivity.
  - intros f. destruct saltOutcome, proofOutcome, order; cbn; intros E;
      try discriminate; injection E as <-; auto.
Qed.

End OrchestrationProperties.

(* ===================================================================== *)
(** * The properties at work on the concrete platform *)
(* ===================================================================== *)

Section Examples.
Import JS Env Zk ZkSteps Demo.

(** Two sessions drawn from the same entropy, one of them in a world that
    has already seen a call, carry the same nonce. *)
Lemma prepareZKLogin_nonce_binding_witness :
  let seen := {| entropy := entropy world0;
                 trace := [LaunchWebAuthFlow {| Env.url := "about:blank"; interactive := true |}] |} in
  let s := fst (@prepareZKLogin wallet 10 world0) in
  let s' := fst (@prepareZKLogin wallet 10 seen) in
  nonce s = nonce_of (public_of (ephemeralKeyPair s)) 12 (randomness s)
  /\ nonce s' = nonce s.
Proof.
  cbv zeta.
  destruct (@prepareZKLogin_nonce_binding wallet 10 world0) as [Hbound Hsame].
  split.
  - exact Hbound.
  - apply Hsame; reflexivity.
Defined.

Lemma prepareZKLogin_maxEpoch_witness :
  (0 <= 10 <= 2 ^ 53 - 2)%Z /\ maxEpoch (fst (@prepareZKLogin wallet 10 world0)) = 12%Z.
Proof.
  split.
  - vm_compute. split; discriminate.
  - apply (@prepareZKLogin_maxEpoch wallet 10 world0). vm_compute. split; discriminate.
Defined.

(** C5 as stated fails: at [currentEpoch = 2^53 - 1], the largest safe
    integer, the sum [2^53 + 1] is not a double and is rounded to [2^53],
    so [maxEpoch] is [currentEpoch + 1]. *)
Lemma prepareZKLogin_maxEpoch_rounded :
  (0 <= MAX_SAFE_INTEGER)%Z
  /\ maxEpoch (fst (@prepareZKLogin wallet MAX_SAFE_INTEGER world0)) = 9007199254740992%Z
  /\ maxEpoch (fst (@prepareZKLogin wallet MAX_SAFE_INTEGER world0))
     <> (MAX_SAFE_INTEGER + 2)%Z.
Proof.
  split; [vm_compute; discriminate|]. split; [vm_compute; reflexivity|].
  vm_compute. discriminate.
Qed.


(** The request of [createPartialZKSignature] for an Ed25519 key: the flag
    byte [0x00] leads the 33 key bytes, and writing the integer back on 33
    bytes restores them. *)
Example ed25519_key_round_trip :
  List.length (toSuiBytes key0) = 33
  /\ hd x01 (toSuiBytes key0) = x00
  /\ toBufferBE (toBigIntBE (toSuiBytes key0)) 33 = toSuiBytes key0
  /\ bigint_toString (toBigIntBE (toSuiBytes key0)) =
     "5060839947903921914538611459712485827713361757932439949520908015661160882566".
Proof. repeat split; vm_compute; reflexivity. Qed.

(** A redirect whose fragment carries a token yields the token. *)
Lemma zkLogin_token_extraction_witness :
  fst (@zkLogin wallet (@LoginArgs.mk wallet google (Some "n0nce") None None) world0)
  = Return token0.
Proof.
  pose (args := @LoginArgs.mk wallet google (Some "n0nce") None None).
  pose (details := {| Env.url := @authorization_url wallet google "n0nce" None None;
                      interactive := true |}).
  pose (redirect := redirectURL ++ "#id_token=" ++ token0 ++ "&authuser=0&prompt=none").
  destruct (@zkLogin_token_extraction wallet args world0 details redirect
              {| hash := hash_of redirect |}) as [_ [_ Htoken]].
  - vm_compute. reflexivity.
  - reflexivity.
  - reflexivity.
  - apply Htoken. split.
    + vm_compute. reflexivity.
    + vm_compute. discriminate.
Defined.

(** The scenario of the spec: fragment [state=abc], no token. *)
Example zkLogin_without_token :
  fst (@zkLogin wallet_without_token
         (@LoginArgs.mk wallet_without_token google (Some "n0nce") None None) world0)
  = Throw (Error "JWT is missing").
Proof. vm_compute. reflexivity. Qed.

(** A user closing the window: the rejection of the flow is the outcome,
    and no request goes to the salt registry or the proof service. *)
Example zkLogin_aborted :
  @zkLogin wallet_with_empty_answers
    (@LoginArgs.mk wallet_with_empty_answers google (Some "n0nce") None None) world0
  = (Throw (Error "The user did not approve access."),
     {| entropy := entropy world0;
        trace := [LaunchWebAuthFlow
                    {| Env.url := @authorization_url wallet_with_empty_answers google
                                    "n0nce" None None;
                       interactive := true |}] |}).
Proof. rewrite zkLogin_steps. reflexivity. Qed.

(** C6 as stated fails: an empty [loginHint] is provided, yet the
    authorization URL has no [login_hint] parameter. *)
Lemma zkLogin_empty_loginHint_not_sent :
  let args := @LoginArgs.mk wallet google (Some "n0nce") (Some EmptyString) None in
  let query :=
    "client_id=wallet-client.apps.googleusercontent.com&response_type=id_token&redirect_uri=https%3A%2F%2Fabcdefghijklmnopabcdefghijklmnop.chromiumapp.org%2F&scope=openid+email+profile&nonce=n0nce" in
  LoginArgs.loginHint args <> None
  /\ trace (snd (zkLogin args world0)) =
     [LaunchWebAuthFlow
        {| Env.url := "https://accounts.google.com/o/oauth2/v2/auth" ++ "?" ++ query;
           interactive := true |}]
  /\ URLSearchParams_names (URLSearchParams_new query) =
     ["client_id"; "response_type"; "redirect_uri"; "scope"; "nonce"]
  /\ ~ In "login_hint" (URLSearchParams_names (URLSearchParams_new query)).
Proof.
  cbv zeta. split; [discriminate|]. split; [vm_compute; reflexivity|].
  split; [vm_compute; reflexivity|].
  vm_compute. intros H.
  repeat (destruct H as [H|H]; [discriminate H|]). exact H.
Qed.

Lemma zkLogin_authorization_request_witness :
  exists nonce query,
    trace (snd (@zkLogin wallet
                  (@LoginArgs.mk wallet google (Some "n0nce") (Some "a b@c.com") (Some consent))
                  world0)) =
      [LaunchWebAuthFlow
         {| Env.url := "https://accounts.google.com/o/oauth2/v2/auth" ++ "?" ++ query;
            interactive := true |}]
    /\ nonce = "n0nce"
    /\ URLSearchParams_new query =
       [("client_id", "wallet-client.apps.googleusercontent.com");
        ("response_type", "id_token");
        ("redirect_uri", redirectURL);
        ("scope", "openid email profile");
        ("nonce", nonce);
        ("login_hint", "a b@c.com");
        ("prompt", "consent")].
Proof.
  destruct (@zkLogin_authorization_request wallet
              (@LoginArgs.mk wallet google (Some "n0nce") (Some "a b@c.com") (Some consent))
              world0) as [nonce [query [Htrace [Hnonce Hparams]]]].
  exists nonce, query. split; [exact Htrace|]. split; [|exact Hparams].
  apply Hnonce; [reflexivity|discriminate].
Defined.

Lemma zkLogin_fresh_nonce_witness :
  String.length "CzBVep_E6Q4zWH2ix-wRNluApco" = 27
  /\ @zkLogin wallet (@LoginArgs.mk wallet google None None (Some select_account)) world0 =
     @zkLogin wallet
       (@LoginArgs.mk wallet google (Some "CzBVep_E6Q4zWH2ix-wRNluApco") None (Some select_account))
       (snd (randomBytes 20 world0)).
Proof.
  destruct (@zkLogin_fresh_nonce wallet
              (@LoginArgs.mk wallet google None None (Some select_account)) world0)
    as [_ [Hlen [_ Hsame]]].
  - left. reflexivity.
  - split; [exact Hlen|exact Hsame].
Defined.

Lemma fetchSalt_exchange_witness :
  fst (@fetchSalt wallet token0 world0) = Return (JString "12345").
Proof.
  destruct (@fetchSalt_exchange wallet token0 world0) as [_ Hsalt].
  apply (Hsalt {| json := Return (JObject [("salt", JString "12345")]) |}
               [("salt", JString "12345")]); reflexivity.
Defined.

(** C8 as stated fails: the registry answers [{}], which has no [salt]
    field, and [fetchSalt] returns [undefined] instead of failing. *)
Lemma fetchSalt_missing_salt_returns :
  @fetchWithSentry_outcome wallet_with_empty_answers "fetchUserSalt"
    "http://salt.api-devnet.mystenlabs.com/get_salt"
    {| method := "POST"; headers := [("Content-Type", "application/json")];
       body := stringify (JObject [("token", JString token0)]) |}
    = Return {| json := Return (JObject []) |}
  /\ has_property (JObject []) "salt" = false
  /\ fst (@fetchSalt wallet_with_empty_answers token0 world0) = Return JUndefined
  /\ is_return (fst (@fetchSalt wallet_with_empty_answers token0 world0)) = true.
Proof. repeat split. Qed.

Lemma fetchSalt_unvalidated_witness :
  fst (@fetchSalt wallet_with_empty_answers token0 world0) = Return JUndefined.
Proof.
  destruct (@fetchSalt_unvalidated wallet_with_empty_answers token0 world0
              {| json := Return (JObject []) |} (JObject [])) as [_ [_ [Hmissing _]]].
  - reflexivity.
  - reflexivity.
  - apply Hmissing; [reflexivity|discriminate|discriminate].
Defined.

(** C9 as stated fails: the proof service answers [{}], which has none of
    the required fields, and [createPartialZKSignature] returns it as a
    success. *)
Lemma createPartialZKSignature_missing_fields_returned :
  fst (@createPartialZKSignature wallet_with_empty_answers inputs0 world0)
    = Return (JObject [])
  /\ has_PartialZkSignature_fields (JObject []) = false
  /\ forallb (fun field => negb (has_property (JObject []) field)) PartialZkSignature_fields
     = true.
Proof. repeat split. Qed.

Lemma createPartialZKSignature_unvalidated_witness :
  fst (@createPartialZKSignature wallet inputs0 world0) = Return signature0
  /\ has_PartialZkSignature_fields signature0 = true.
Proof.
  destruct (@createPartialZKSignature_unvalidated wallet inputs0 world0)
    as [init [_ Hreturned]].
  split.
  - apply (Hreturned {| json := Return signature0 |}); reflexivity.
  - reflexivity.
Defined.

(** The scenario of the spec: the salt call succeeds with ["12345"], the
    proof call times out. *)
Lemma completeLogin_both_or_failure_witness :
  @Orchestration.completeLogin string JSValue
    (Orchestration.Succeeded "12345")
    (Orchestration.Failed
       {| Orchestration.stage := Orchestration.ProofAssembly;
          Orchestration.cause := Orchestration.TimeoutError |})
    Orchestration.SaltFirst
  = Orchestration.Failed
      {| Orchestration.stage := Orchestration.ProofAssembly;
         Orchestration.cause := Orchestration.TimeoutError |}.
Proof.
  destruct (@completeLogin_both_or_failure string JSValue
              (Orchestration.Succeeded "12345")
              (Orchestration.Failed
                 {| Orchestration.stage := Orchestration.ProofAssembly;
                    Orchestration.cause := Orchestration.TimeoutError |})
              Orchestration.SaltFirst) as [_ [Hproof _]].
  apply (Hproof "12345"); reflexivity.
Defined.

End Examples.

(* ===================================================================== *)
(** * Further facts about the built-ins *)
(* ===================================================================== *)

Section WireFacts.
Import JS Wire.

Ltac by_byte c := destruct c as [[] [] [] [] [] [] [] []].

Lemma base64url_char_shape (n : N) : is_base64url_char (base64url_char n) = true.
Proof.
  unfold base64url_char. generalize (N.to_nat n). intros k.
  do 64 (destruct k as [|k]; [reflexivity|]). reflexivity.
Qed.

(** The encoder emits characters of the URL-safe alphabet only, and no
    padding. *)
Lemma base64url_encode_shape (input : list byte) :
  all_chars is_base64url_char (base64url_encode input) = true.
Proof.
  assert (H : all_chars is_base64url_char (base64url_encode input) = true
              /\ (forall a, all_chars is_base64url_char (base64url_encode (a :: input)) = true)
              /\ (forall a b,
                    all_chars is_base64url_char (base64url_encode (a :: b :: input)) = true)).
  { induction input as [|c rest [IH0 [IH1 IH2]]].
    - repeat split; intros; cbn [base64url_encode all_chars];
        rewrite ?base64url_char_shape; reflexivity.
    - split; [apply IH1|]. split; [intros a; apply IH2|].
      intros a b. cbn [base64url_encode all_chars].
      rewrite !base64url_char_shape, IH0. reflexivity. }
  apply H.
Qed.

Lemma base64url_char_is_form_safe (c : ascii) :
  is_base64url_char c = true -> is_form_safe c = true.
Proof. by_byte c; cbn; intros H; first [reflexivity | discriminate H]. Qed.

Lemma form_urlencode_byte_safe (c : ascii) :
  is_form_safe c = true -> form_urlencode_byte c = String c EmptyString.
Proof. by_byte c; cbn; intros H; first [reflexivity | discriminate H]. Qed.

(** A string of unreserved characters is its own encoding. *)
Lemma form_urlencode_safe (s : string) :
  all_chars is_form_safe s = true -> form_urlencode s = s.
Proof.
  induction s as [|c s IH]; cbn [all_chars form_urlencode]; [reflexivity|].
  rewrite andb_true_iff. intros [Hc Hs].
  rewrite (form_urlencode_byte_safe c Hc), (IH Hs). reflexivity.
Qed.

Lemma form_urlencode_byte_query_chars (c : ascii) :
  all_chars is_query_char (form_urlencode_byte c) = true.
Proof. by_byte c; reflexivity. Qed.

Lemma form_urlencode_query_chars (s : string) :
  all_chars is_query_char (form_urlencode s) = true.
Proof.
  induction s as [|c s IH]; cbn [form_urlencode]; [reflexivity|].
  rewrite all_chars_app, form_urlencode_byte_query_chars, IH. reflexivity.
Qed.

Lemma URLSearchParams_toString_query_chars (params : URLSearchParams) :
  all_chars is_query_char (URLSearchParams_toString params) = true.
Proof.
  unfold URLSearchParams_toString.
  induction params as [|[n v] rest IH]; [reflexivity|].
  assert (Hseg : all_chars is_query_char (form_urlencode n ++ "=" ++ form_urlencode v) = true).
  { rewrite all_chars_app, form_urlencode_query_chars. cbn.
    apply form_urlencode_query_chars. }
  destruct rest as [|q rest].
  - exact Hseg.
  - change (String.concat "&" (map (fun p => form_urlencode (fst p) ++ "=" ++ form_urlencode (snd p))
                                   ((n, v) :: q :: rest)))
      with ((form_urlencode n ++ "=" ++ form_urlencode v) ++
            String "&" (String.concat "&"
                          (map (fun p => form_urlencode (fst p) ++ "=" ++ form_urlencode (snd p))
                               (q :: rest)))).
    rewrite all_chars_app, Hseg. cbn [all_chars andb]. exact IH.
Qed.

(** The segments of a serialized query are the serialized pairs. *)
Lemma split_on_toString (p : string * string) (rest : URLSearchParams) :
  split_on "&" (URLSearchParams_toString (p :: rest)) =
  map (fun q => form_urlencode (fst q) ++ "=" ++ form_urlencode (snd q)) (p :: rest).
Proof.
  unfold URLSearchParams_toString. revert p.
  induction rest as [|q rest IH]; intros [n v].
  - cbn [map String.concat fst snd]. apply split_on_clean, pair_no_amp.
  - change (String.concat "&" (map (fun p => form_urlencode (fst p) ++ "=" ++ form_urlencode (snd p))
                                   ((n, v) :: q :: rest)))
      with ((form_urlencode n ++ "=" ++ form_urlencode v) ++
            String "&" (String.concat "&"
                          (map (fun p => form_urlencode (fst p) ++ "=" ++ form_urlencode (snd p))
                               (q :: rest)))).
    rewrite split_on_app by apply pair_no_amp.
    rewrite IH. reflexivity.
Qed.

(** [get] finds the first pair with the name, whatever follows it. *)
Lemma URLSearchParams_get_first (pre post : URLSearchParams) (name value : string) :
  ~ In name (URLSearchParams_names pre) ->
  URLSearchParams_get (pre ++ (name, value) :: post)%list name = Some value.
Proof.
  induction pre as [|[n v] pre IH]; cbn.
  - intros _. rewrite String.eqb_refl. reflexivity.
  - intros H. destruct (String.eqb_spec n name) as [->|Hn].
    + exfalso. apply H. now left.
    + apply IH. tauto.
Qed.

(** [replace('#', '')] on one character more. *)
Lemma replace_hash_cons (c : ascii) (s : string) :
  replace "#" EmptyString (String c s) =
  if Ascii.eqb c "#" then s else String c (replace "#" EmptyString s).
Proof. by_byte c; destruct s; reflexivity. Qed.

Lemma replace_hash_keeps (p : ascii -> bool) (s : string) :
  all_chars p s = true -> all_chars p (replace "#" EmptyString s) = true.
Proof.
  induction s as [|c s IH]; [reflexivity|].
  rewrite replace_hash_cons. cbn [all_chars]. rewrite andb_true_iff.
  intros [Hc Hs]. destruct (Ascii.eqb c "#"); [exact Hs|].
  cbn [all_chars]. rewrite Hc, (IH Hs). reflexivity.
Qed.

Lemma split_on_keeps (p : ascii -> bool) (sep : ascii) (s : string) :
  all_chars p s = true ->
  Forall (fun piece => all_chars p piece = true) (split_on sep s).
Proof.
  induction s as [|c s IH]; cbn [split_on all_chars].
  - intros _. constructor; [reflexivity|constructor].
  - rewrite andb_true_iff. intros [Hc Hs]. specialize (IH Hs).
    destruct (Ascii.eqb c sep).
    + constructor; [reflexivity|exact IH].
    + destruct (split_on sep s) as [|h t].
      * constructor; [cbn; rewrite Hc; reflexivity|constructor].
      * inversion IH; subst. constructor; [cbn; rewrite Hc; assumption|assumption].
Qed.

Lemma split_pair_without_eq (s : string) :
  all_chars (fun x => negb (Ascii.eqb x "=")) s = true ->
  split_pair s = (s, EmptyString).
Proof.
  induction s as [|c s IH]; cbn; [reflexivity|].
  rewrite andb_true_iff, negb_true_iff. intros [Hc Hs].
  rewrite Hc, (IH Hs). reflexivity.
Qed.

(** Without any [=] in the input, every parsed value is empty. *)
Lemma urlencoded_parse_without_eq (input : string) :
  all_chars (fun x => negb (Ascii.eqb x "=")) input = true ->
  Forall (fun pair => snd pair = EmptyString) (urlencoded_parse input).
Proof.
  intros H. unfold urlencoded_parse.
  pose proof (split_on_keeps _ "&" input H) as Hpieces.
  induction Hpieces as [|piece pieces Hpiece _ IH]; cbn [flat_map]; [constructor|].
  destruct (truthy piece); cbn [app]; [|exact IH].
  rewrite (split_pair_without_eq piece Hpiece).
  constructor; [reflexivity|exact IH].
Qed.

Lemma URLSearchParams_get_empty_values (params : URLSearchParams) (name : string) :
  Forall (fun pair => snd pair = EmptyString) params ->
  URLSearchParams_get params name = None \/ URLSearchParams_get params name = Some EmptyString.
Proof.
  induction 1 as [|[n v] rest Hv _ IH]; cbn; [now left|].
  cbn in Hv. subst v. destruct (String.eqb n name); [now right|exact IH].
Qed.

End WireFacts.

(* ===================================================================== *)
(** * Further properties of [zkLogin] *)
(* ===================================================================== *)

Section LoginEdgeProperties.
Import JS Env Zk ZkSteps Wire.
Context {P : Platform}.

Lemma URLSearchParams_new_cases (init : string) :
  URLSearchParams_new init = urlencoded_parse init
  \/ exists rest, init = String "?" rest /\ URLSearchParams_new init = urlencoded_parse rest.
Proof.
  destruct init as [|c rest]; [now left|].
  destruct c as [[] [] [] [] [] [] [] []]; try (now left).
  right. exists rest. split; reflexivity.
Qed.

Lemma zkLogin_result (args : LoginArgs.t) (w : World) (details : WebAuthFlowDetails) :
  trace (snd (zkLogin args w)) = (trace w ++ [LaunchWebAuthFlow details])%list ->
  fst (zkLogin args w) =
  match launchWebAuthFlow_outcome details with
  | Throw e => Throw e
  | Return redirect => extract_token redirect
  end.
Proof.
  intros Htrace. rewrite zkLogin_trace in Htrace.
  apply app_inv_head in Htrace. injection Htrace as Hd.
  rewrite zkLogin_steps. cbv zeta. cbn [fst]. rewrite Hd. reflexivity.
Qed.

(** X2.  A token returned by [zkLogin] is never the empty string,
    whatever the provider and the URL parser do. *)
Theorem zkLogin_token_nonempty (args : LoginArgs.t) (w : World) (token : string) :
  fst (zkLogin args w) = Return token -> token <> EmptyString.
Proof.
  rewrite zkLogin_steps. cbv zeta. cbn [fst].
  destruct (launchWebAuthFlow_outcome _) as [redirect|e]; [|discriminate].
  unfold extract_token.
  destruct (URL_parse redirect) as [u|e]; [|discriminate].
  destruct (URLSearchParams_get _ _) as [[|c t]|]; try discriminate.
  intros H. injection H as <-. discriminate.
Qed.

(** X3.  The ways [zkLogin] fails.  It throws [e] exactly when the
    interactive flow rejects with [e], or the flow resolves and the URL
    constructor throws [e] on the redirect, or the redirect parses and
    carries no non-empty [id_token], [e] then being "JWT is missing". *)
Theorem zkLogin_failures (args : LoginArgs.t) (w : World)
    (details : WebAuthFlowDetails) (e : exn) :
  trace (snd (zkLogin args w)) = (trace w ++ [LaunchWebAuthFlow details])%list ->
  (fst (zkLogin args w) = Throw e <->
   launchWebAuthFlow_outcome details = Throw e
   \/ (exists redirect,
         launchWebAuthFlow_outcome details = Return redirect
         /\ URL_parse redirect = Throw e)
   \/ (exists redirect responseURL,
         launchWebAuthFlow_outcome details = Return redirect
         /\ URL_parse redirect = Return responseURL
         /\ truthy_opt (URLSearchParams_get
                          (URLSearchParams_new (replace "#" EmptyString (hash responseURL)))
                          "id_token") = false
         /\ e = Error "JWT is missing")).
Proof.
  intros Htrace. rewrite (zkLogin_result args w details Htrace).
  unfold extract_token, response_params.
  split.
  - intros H.
    destruct (launchWebAuthFlow_outcome details) as [redirect|e0]; [|now left].
    right. destruct (URL_parse redirect) as [u|e1] eqn:Hurl.
    + right. exists redirect, u.
      destruct (URLSearchParams_get _ "id_token") as [[|c t]|];
        try discriminate H; injection H as <-; repeat split; exact Hurl.
    + left. exists redirect. split; [reflexivity|]. injection H as <-. exact Hurl.
  - intros [H|[[r [H1 H2]]|[r [u [H1 [H2 [H3 ->]]]]]]].
    + rewrite H. reflexivity.
    + rewrite H1, H2. reflexivity.
    + rewrite H1, H2.
      destruct (URLSearchParams_get _ "id_token") as [[|c t]|];
        first [reflexivity | discriminate H3].
Qed.

(** X4.  [zkLogin] reads the entropy source only to make up a nonce: with
    a non-empty [nonce] argument the entropy is untouched, without one
    exactly 20 bytes are read. *)
Theorem zkLogin_entropy (args : LoginArgs.t) (w : World) :
  (truthy_opt (LoginArgs.nonce args) = true -> entropy (snd (zkLogin args w)) = entropy w)
  /\ (truthy_opt (LoginArgs.nonce args) = false ->
      entropy (snd (zkLogin args w)) =
      {| tape := tape (entropy w); cursor := cursor (entropy w) + 20 |}).
Proof.
  rewrite zkLogin_steps. cbv zeta. cbn [snd entropy]. unfold effective_nonce.
  split; intros ->; reflexivity.
Qed.

(** X5.  The nonce made up for a call without one consists of base64url
    characters only, so the serializer leaves it as it is: the query
    string of the authorization URL has the segment [nonce=] followed by
    the nonce itself. *)
Theorem zkLogin_fresh_nonce_verbatim (args : LoginArgs.t) (w : World) :
  LoginArgs.nonce args = None \/ LoginArgs.nonce args = Some EmptyString ->
  let fresh := base64url_encode (fst (randomBytes 20 w)) in
  all_chars is_base64url_char fresh = true
  /\ exists query,
       trace (snd (zkLogin args w)) =
         (trace w ++
          [LaunchWebAuthFlow
             {| Env.url := Providers.url (zkProviderDataMap (LoginArgs.provider args))
                             ++ "?" ++ query;
                interactive := true |}])%list
       /\ In ("nonce=" ++ fresh) (split_on "&" query).
Proof.
  intros Hn. cbv zeta.
  pose proof (base64url_encode_shape (fst (randomBytes 20 w))) as Hshape.
  split; [exact Hshape|].
  assert (Heff : fst (effective_nonce (LoginArgs.nonce args) w) =
                 base64url_encode (fst (randomBytes 20 w))).
  { unfold effective_nonce. destruct Hn as [-> | ->]; cbn;
      destruct (randomBytes 20 w); reflexivity. }
  eexists. split.
  - rewrite zkLogin_trace, Heff. unfold authorization_url. reflexivity.
  - unfold authorization_params. cbn [app]. rewrite split_on_toString.
    cbn [map fst snd]. do 4 right. left.
    rewrite (form_urlencode_safe (base64url_encode _)).
    + reflexivity.
    + apply all_chars_weaken with (2 := Hshape). apply base64url_char_is_form_safe.
Qed.

(** X6.  Whatever the arguments and the provider table hold, the query
    string of the authorization URL is made of unreserved characters,
    [+], [%], [&] and [=] only: no argument can put a [#], a [?], a space
    or a non-ASCII byte into it. *)
Theorem zkLogin_query_characters (args : LoginArgs.t) (w : World) :
  exists query,
    trace (snd (zkLogin args w)) =
      (trace w ++
       [LaunchWebAuthFlow
          {| Env.url := Providers.url (zkProviderDataMap (LoginArgs.provider args))
                          ++ "?" ++ query;
             interactive := true |}])%list
    /\ all_chars is_query_char query = true.
Proof.
  eexists. split.
  - rewrite zkLogin_trace. unfold authorization_url. reflexivity.
  - apply URLSearchParams_toString_query_chars.
Qed.

(** X7.  When the fragment of the redirect is a [#] followed by the
    standard serialization of a list of parameters, [zkLogin] returns the
    first [id_token] of that list, decoded, provided it is not empty, and
    throws "JWT is missing" otherwise. *)
Theorem zkLogin_reads_serialized_fragment (args : LoginArgs.t) (w : World)
    (details : WebAuthFlowDetails) (redirect : string) (responseURL : URL)
    (params : URLSearchParams) :
  trace (snd (zkLogin args w)) = (trace w ++ [LaunchWebAuthFlow details])%list ->
  launchWebAuthFlow_outcome details = Return redirect ->
  URL_parse redirect = Return responseURL ->
  hash responseURL = "#" ++ URLSearchParams_toString params ->
  fst (zkLogin args w) =
  match URLSearchParams_get params "id_token" with
  | Some (String c t) => Return (String c t)
  | _ => Throw (Error "JWT is missing")
  end.
Proof.
  intros Htrace Hflow Hurl Hhash.
  rewrite (zkLogin_result args w details Htrace), Hflow.
  rewrite (extract_token_cases _ _ Hurl). unfold response_params.
  rewrite Hhash.
  change ("#" ++ URLSearchParams_toString params)
    with (String "#" (URLSearchParams_toString params)).
  rewrite replace_hash_cons. cbn [Ascii.eqb Bool.eqb].
  rewrite URLSearchParams_new_toString. reflexivity.
Qed.

(** X8.  Only the first [id_token] of the fragment counts: parameters
    before it with other names and anything after it, further [id_token]
    fields included, do not change the result. *)
Theorem zkLogin_first_id_token (args : LoginArgs.t) (w : World)
    (details : WebAuthFlowDetails) (redirect : string) (responseURL : URL)
    (before after : URLSearchParams) (value : string) :
  trace (snd (zkLogin args w)) = (trace w ++ [LaunchWebAuthFlow details])%list ->
  launchWebAuthFlow_outcome details = Return redirect ->
  URL_parse redirect = Return responseURL ->
  URLSearchParams_new (replace "#" EmptyString (hash responseURL)) =
    (before ++ ("id_token", value) :: after)%list ->
  ~ In "id_token" (URLSearchParams_names before) ->
  fst (zkLogin args w) =
  if truthy value then Return value else Throw (Error "JWT is missing").
Proof.
  intros Htrace Hflow Hurl Hparams Hbefore.
  rewrite (zkLogin_result args w details Htrace), Hflow.
  rewrite (extract_token_cases _ _ Hurl). unfold response_params.
  rewrite Hparams, (URLSearchParams_get_first before after "id_token" value Hbefore).
  destruct value; reflexivity.
Qed.

(** X9.  A redirect whose fragment holds no [=] at all (an empty
    fragment, for one) makes [zkLogin] throw "JWT is missing". *)
Theorem zkLogin_fragment_without_values (args : LoginArgs.t) (w : World)
    (details : WebAuthFlowDetails) (redirect : string) (responseURL : URL) :
  trace (snd (zkLogin args w)) = (trace w ++ [LaunchWebAuthFlow details])%list ->
  launchWebAuthFlow_outcome details = Return redirect ->
  URL_parse redirect = Return responseURL ->
  all_chars (fun c => negb (Ascii.eqb c "=")) (hash responseURL) = true ->
  fst (zkLogin args w) = Throw (Error "JWT is missing").
Proof.
  intros Htrace Hflow Hurl Hhash.
  rewrite (zkLogin_result args w details Htrace), Hflow.
  rewrite (extract_token_cases _ _ Hurl). unfold response_params.
  pose proof (replace_hash_keeps _ _ Hhash) as Hfrag.
  assert (Hvalues : Forall (fun pair => snd pair = EmptyString)
                      (URLSearchParams_new (replace "#" EmptyString (hash responseURL)))).
  { destruct (URLSearchParams_new_cases (replace "#" EmptyString (hash responseURL)))
      as [-> | [rest [Hrest ->]]].
    - apply urlencoded_parse_without_eq, Hfrag.
    - apply urlencoded_parse_without_eq. rewrite Hrest in Hfrag.
      cbn [all_chars] in Hfrag. apply andb_true_iff in Hfrag. apply Hfrag. }
  destruct (URLSearchParams_get_empty_values _ "id_token" Hvalues) as [-> | ->]; reflexivity.
Qed.

End LoginEdgeProperties.

(* ===================================================================== *)
(** * Further properties of the two service calls *)
(* ===================================================================== *)

Section ServiceEdgeProperties.
Import JS Env Zk Wire.
Context {P : Platform}.

Lemma toBigIntBE_zeros (k : nat) (buf : list byte) :
  toBigIntBE (repeat x00 k ++ buf) = toBigIntBE buf.
Proof.
  induction k as [|k IH]; [reflexivity|].
  cbn [repeat app]. rewrite toBigIntBE_leading_zero. exact IH.
Qed.

Lemma bigint_toString_injective (a b : Z) :
  bigint_toString a = bigint_toString b -> a = b.
Proof.
  intros H. pose proof (BigInt_parse_toString a) as Ha.
  rewrite H, BigInt_parse_toString in Ha. congruence.
Qed.

(** X10.  Leading zero bytes of the key's encoding do not reach the proof
    service: a key whose bytes are [raw] behind any number of [0x00]
    bytes (the Ed25519 flag is one) yields the very request, and so the
    very outcome, of the key whose bytes are [raw]. *)
Theorem createPartialZKSignature_drops_leading_zeros (inputs : WalletInputs.t)
    (zeros : nat) (raw : list byte) (w : World) :
  toSuiBytes (WalletInputs.ephemeralPublicKey inputs) = (repeat x00 zeros ++ raw)%list ->
  createPartialZKSignature inputs w =
  createPartialZKSignature (with_key inputs {| toSuiBytes := raw |}) w.
Proof.
  intros Hkey. unfold createPartialZKSignature, with_key.
  cbn [WalletInputs.jwt WalletInputs.ephemeralPublicKey WalletInputs.maxEpoch
       WalletInputs.jwtRandomness WalletInputs.userSalt WalletInputs.keyClaimName toSuiBytes].
  rewrite Hkey, toBigIntBE_zeros. reflexivity.
Qed.

(** X11.  Among keys whose encodings have the same length,
    [eph_public_key] identifies the key: equal decimal strings come from
    equal bytes. *)
Theorem eph_public_key_injective (key1 key2 : PublicKey) :
  List.length (toSuiBytes key1) = List.length (toSuiBytes key2) ->
  bigint_toString (toBigIntBE (toSuiBytes key1)) =
  bigint_toString (toBigIntBE (toSuiBytes key2)) ->
  toSuiBytes key1 = toSuiBytes key2.
Proof.
  intros Hlen Hstr. apply bigint_toString_injective in Hstr.
  rewrite <- (toBufferBE_toBigIntBE (toSuiBytes key1)).
  rewrite <- (toBufferBE_toBigIntBE (toSuiBytes key2)).
  rewrite Hstr, Hlen. reflexivity.
Qed.

(** X12.  The decimal strings sent as [jwt_randomness] and [subject_pin]
    read back to [jwtRandomness] and [userSalt], sign included (a
    negative value is sent with a leading [-]); hence two wallet inputs
    with the same two strings have the same randomness and the same
    salt. *)
Theorem bigint_fields_round_trip (inputs : WalletInputs.t) :
  BigInt_parse (bigint_toString (WalletInputs.jwtRandomness inputs))
    = Some (WalletInputs.jwtRandomness inputs)
  /\ BigInt_parse (bigint_toString (WalletInputs.userSalt inputs))
     = Some (WalletInputs.userSalt inputs)
  /\ ((WalletInputs.userSalt inputs < 0)%Z ->
      exists digits,
        bigint_toString (WalletInputs.userSalt inputs) = String "-" digits
        /\ all_chars is_decimal_digit digits = true)
  /\ forall other : WalletInputs.t,
       bigint_toString (WalletInputs.jwtRandomness other)
         = bigint_toString (WalletInputs.jwtRandomness inputs) ->
       bigint_toString (WalletInputs.userSalt other)
         = bigint_toString (WalletInputs.userSalt inputs) ->
       WalletInputs.jwtRandomness other = WalletInputs.jwtRandomness inputs
       /\ WalletInputs.userSalt other = WalletInputs.userSalt inputs.
Proof.
  split; [apply BigInt_parse_toString|]. split; [apply BigInt_parse_toString|]. split.
  - intros Hneg. destruct (WalletInputs.userSalt inputs) as [|p|p]; try lia.
    exists (bigint_toString (Z.pos p)). split.
    + reflexivity.
    + apply bigint_toString_digits. lia.
  - intros other Hr Hs. split; apply bigint_toString_injective; assumption.
Qed.

(** X13.  The ways [fetchSalt] fails.  It throws [e] exactly when
    [fetchWithSentry] rejects with [e], or the response's [json()]
    rejects with [e], or the body parses to [null] (or [undefined]) and
    [e] is the [TypeError] of reading [salt] from it.  No other answer
    makes it fail. *)
Theorem fetchSalt_failures (jwt : string) (w : World) (e : exn) :
  let answer :=
    fetchWithSentry_outcome "fetchUserSalt" "http://salt.api-devnet.mystenlabs.com/get_salt"
      {| method := "POST";
         headers := [("Content-Type", "application/json")];
         body := JSON_stringify (JObject [("token", JString jwt)]) |} in
  fst (fetchSalt jwt w) = Throw e <->
  answer = Throw e
  \/ (exists response, answer = Return response /\ json response = Throw e)
  \/ (exists response parsed,
        answer = Return response
        /\ json response = Return parsed
        /\ (parsed = JNull \/ parsed = JUndefined)
        /\ read_property parsed "salt" = Throw e).
Proof.
  cbv zeta. rewrite fetchSalt_outcome.
  change (saltRegistryUrl ++ "/get_salt") with "http://salt.api-devnet.mystenlabs.com/get_salt".
  change json_headers with [("Content-Type", "application/json")].
  destruct (fetchWithSentry_outcome _ _ _) as [response|e0].
  - destruct (json response) as [parsed|e1] eqn:Hjson.
    + split.
      * intros H. right. right. exists response, parsed.
        repeat split; try assumption.
        destruct parsed; cbn in H; try discriminate H; auto.
      * intros [H|[[r [H1 H2]]|[r [v [H1 [H2 [_ H4]]]]]]]; try discriminate.
        -- injection H1 as <-. rewrite Hjson in H2. discriminate.
        -- injection H1 as <-. rewrite Hjson in H2. injection H2 as <-. exact H4.
    + split.
      * intros H. injection H as <-. right. left. exists response. split; [reflexivity|exact Hjson].
      * intros [H|[[r [H1 H2]]|[r [v [H1 [H2 _]]]]]]; try discriminate.
        -- injection H1 as <-. rewrite Hjson in H2. exact H2.
        -- injection H1 as <-. rewrite Hjson in H2. discriminate.
  - split.
    + intros H. left. injection H as <-. reflexivity.
    + intros [H|[[r [H _]]|[r [v [H _]]]]]; try discriminate.
      injection H as <-. reflexivity.
Qed.

(** X14.  The ways [createPartialZKSignature] fails.  For the one request
    it sends, it throws [e] exactly when [fetchWithSentry] rejects with
    [e] or the response's [json()] rejects with [e]; the content of a
    parsed body never makes it fail. *)
Theorem createPartialZKSignature_failures (inputs : WalletInputs.t) (w : World) :
  exists init,
    trace (snd (createPartialZKSignature inputs w)) =
      (trace w ++ [FetchWithSentry "createZKProofs" "http://185.209.177.123:8000/test/zkp" init])%list
    /\ forall e,
         fst (createPartialZKSignature inputs w) = Throw e <->
         fetchWithSentry_outcome "createZKProofs" "http://185.209.177.123:8000/test/zkp" init
           = Throw e
         \/ exists response,
              fetchWithSentry_outcome "createZKProofs" "http://185.209.177.123:8000/test/zkp" init
                = Return response
              /\ json response = Throw e.
Proof.
  destruct (createPartialZKSignature_outcome inputs w) as [init [Htrace Hout]].
  exists init. split; [exact Htrace|]. intros e. rewrite Hout.
  change (zkProofsServerUrl ++ "/test/zkp") with "http://185.209.177.123:8000/test/zkp".
  destruct (fetchWithSentry_outcome _ _ init) as [response|e0].
  - split.
    + intros H. right. exists response. split; [reflexivity|exact H].
    + intros [H|[r [H1 H2]]]; [discriminate|]. injection H1 as <-. exact H2.
  - split.
    + intros H. left. injection H as <-. reflexivity.
    + intros [H|[r [H _]]]; [|discriminate]. injection H as <-. reflexivity.
Qed.

(** X15.  The randomness of a session, handed on as [jwtRandomness], is
    sent as an unsigned decimal string: digits only, never a sign. *)
Theorem session_randomness_decimal (currentEpoch : Z) (w : World) (inputs : WalletInputs.t) :
  WalletInputs.jwtRandomness inputs = randomness (fst (prepareZKLogin currentEpoch w)) ->
  all_chars is_decimal_digit (bigint_toString (WalletInputs.jwtRandomness inputs)) = true.
Proof.
  intros ->. apply bigint_toString_digits.
  unfold prepareZKLogin.
  destruct (Ed25519Keypair_new w) as [kp w1].
  destruct (randomBytes 16 w1) as [bytes w2].
  apply toBigIntBE_nonneg.
Qed.

End ServiceEdgeProperties.

Section FragmentProperties.
Import JS Env Zk ZkSteps.
Context {P : Platform}.


End FragmentProperties.

(* ===================================================================== *)
(** * The further properties at work *)
(* ===================================================================== *)

Section MoreExamples.
Import JS Env Zk ZkSteps Wire Demo Scenarios.

Lemma zkLogin_token_nonempty_witness :
  fst (@zkLogin wallet (@LoginArgs.mk wallet google (Some "n0nce") None None) world0)
    = Return token0
  /\ token0 <> EmptyString.
Proof.
  assert (H : fst (@zkLogin wallet (@LoginArgs.mk wallet google (Some "n0nce") None None) world0)
              = Return token0) by (vm_compute; reflexivity).
  split; [exact H|].
  exact (@zkLogin_token_nonempty wallet _ world0 token0 H).
Defined.

Lemma zkLogin_failures_witness :
  fst (@zkLogin wallet_aborted
         (@LoginArgs.mk wallet_aborted twitch (Some "n0nce") None None) world0)
  = Throw (Error "The user did not approve access.").
Proof.
  apply (@zkLogin_failures wallet_aborted
           (@LoginArgs.mk wallet_aborted twitch (Some "n0nce") None None) world0
           {| Env.url := @authorization_url wallet_aborted twitch "n0nce" None None;
              interactive := true |}).
  - vm_compute. reflexivity.
  - left. reflexivity.
Defined.

Lemma zkLogin_entropy_witness :
  entropy (snd (@zkLogin wallet (@LoginArgs.mk wallet google (Some "n0nce") None None) world0))
    = entropy world0
  /\ cursor (entropy (snd (@zkLogin wallet (@LoginArgs.mk wallet google None None None) world0)))
     = 20.
Proof.
  split.
  - apply (@zkLogin_entropy wallet (@LoginArgs.mk wallet google (Some "n0nce") None None) world0).
    reflexivity.
  - rewrite (proj2 (@zkLogin_entropy wallet (@LoginArgs.mk wallet google None None None) world0));
      reflexivity.
Defined.

Lemma zkLogin_fresh_nonce_verbatim_witness :
  all_chars is_base64url_char (base64url_encode (fst (randomBytes 20 world0))) = true
  /\ exists query,
       trace (snd (@zkLogin wallet (@LoginArgs.mk wallet google (Some EmptyString) None None)
                     world0)) =
         [LaunchWebAuthFlow
            {| Env.url := "https://accounts.google.com/o/oauth2/v2/auth" ++ "?" ++ query;
               interactive := true |}]
       /\ In "nonce=CzBVep_E6Q4zWH2ix-wRNluApco" (split_on "&" query).
Proof.
  apply (@zkLogin_fresh_nonce_verbatim wallet
           (@LoginArgs.mk wallet google (Some EmptyString) None None) world0).
  right. reflexivity.
Defined.

Lemma zkLogin_reads_serialized_fragment_witness :
  fst (@zkLogin wallet (@LoginArgs.mk wallet google (Some "n0nce") None None) world0)
  = Return token0.
Proof.
  apply (@zkLogin_reads_serialized_fragment wallet
           (@LoginArgs.mk wallet google (Some "n0nce") None None) world0
           {| Env.url := @authorization_url wallet google "n0nce" None None;
              interactive := true |}
           (redirectURL ++ "#id_token=" ++ token0 ++ "&authuser=0&prompt=none")
           {| hash := "#id_token=" ++ token0 ++ "&authuser=0&prompt=none" |}
           [("id_token", token0); ("authuser", "0"); ("prompt", "none")]).
  - vm_compute. reflexivity.
  - reflexivity.
  - vm_compute. reflexivity.
  - vm_compute. reflexivity.
Defined.

(** An empty [id_token] ahead of a good one: the good one is not used. *)
Lemma zkLogin_first_id_token_witness :
  fst (@zkLogin wallet_with_two_tokens
         (@LoginArgs.mk wallet_with_two_tokens google (Some "n0nce") None None) world0)
  = Throw (Error "JWT is missing").
Proof.
  apply (@zkLogin_first_id_token wallet_with_two_tokens
           (@LoginArgs.mk wallet_with_two_tokens google (Some "n0nce") None None) world0
           {| Env.url := @authorization_url wallet_with_two_tokens google "n0nce" None None;
              interactive := true |}
           (redirectURL ++ "#state=1&id_token=&id_token=abc")
           {| hash := "#state=1&id_token=&id_token=abc" |}
           [("state", "1")] [("id_token", "abc")] EmptyString).
  - vm_compute. reflexivity.
  - reflexivity.
  - vm_compute. reflexivity.
  - vm_compute. reflexivity.
  - vm_compute. intros [H|H]; [discriminate H|exact H].
Defined.

Lemma zkLogin_fragment_without_values_witness :
  fst (@zkLogin wallet_without_fragment
         (@LoginArgs.mk wallet_without_fragment google (Some "n0nce") None None) world0)
  = Throw (Error "JWT is missing").
Proof.
  apply (@zkLogin_fragment_without_values wallet_without_fragment
           (@LoginArgs.mk wallet_without_fragment google (Some "n0nce") None None) world0
           {| Env.url := @authorization_url wallet_without_fragment google "n0nce" None None;
              interactive := true |}
           (redirectURL ++ "?error=access_denied")
           {| hash := EmptyString |}).
  - vm_compute. reflexivity.
  - reflexivity.
  - vm_compute. reflexivity.
  - reflexivity.
Defined.


(** ... but a second [?] is not: the first parameter is then named
    [?id_token], and there is no token. *)
Example zkLogin_two_question_marks :
  fst (@zkLogin wallet_with_two_question_marks
         (@LoginArgs.mk wallet_with_two_question_marks google (Some "n0nce") None None) world0)
    = Throw (Error "JWT is missing")
  /\ urlencoded_parse "?id_token=abc&state=1" = [("?id_token", "abc"); ("state", "1")].
Proof. split; vm_compute; reflexivity. Qed.

Lemma createPartialZKSignature_drops_leading_zeros_witness :
  @createPartialZKSignature wallet inputs0 world0 =
  @createPartialZKSignature wallet
    (with_key inputs0 {| toSuiBytes := fst (read_entropy 32 (entropy world0)) |}) world0.
Proof.
  apply (@createPartialZKSignature_drops_leading_zeros wallet inputs0 1
           (fst (read_entropy 32 (entropy world0))) world0).
  reflexivity.
Defined.

Lemma eph_public_key_injective_witness :
  toSuiBytes key0 = toSuiBytes (public_of (fst (keygen (entropy world0)))).
Proof.
  apply (eph_public_key_injective key0 (public_of (fst (keygen (entropy world0))))).
  - vm_compute. reflexivity.
  - vm_compute. reflexivity.
Defined.

Lemma bigint_fields_round_trip_witness :
  exists digits,
    bigint_toString (WalletInputs.userSalt inputs1) = String "-" digits
    /\ all_chars is_decimal_digit digits = true.
Proof.
  destruct (bigint_fields_round_trip inputs1) as [_ [_ [Hneg _]]].
  apply Hneg. vm_compute. reflexivity.
Defined.

Lemma fetchSalt_failures_witness :
  fst (@fetchSalt wallet_offline token0 world0) = Throw (TypeError "Failed to fetch").
Proof.
  apply (@fetchSalt_failures wallet_offline token0 world0). left. reflexivity.
Defined.

Lemma createPartialZKSignature_failures_witness :
  fst (@createPartialZKSignature wallet_behind_proxy inputs0 world0)
  = Throw (SyntaxError "Unexpected token < in JSON at position 0").
Proof.
  destruct (@createPartialZKSignature_failures wallet_behind_proxy inputs0 world0)
    as [init [_ H]].
  apply H. right.
  exists {| json := Throw (SyntaxError "Unexpected token < in JSON at position 0") |}.
  split; reflexivity.
Defined.

Lemma session_randomness_decimal_witness :
  all_chars is_decimal_digit (bigint_toString (WalletInputs.jwtRandomness inputs1)) = true.
Proof.
  apply (@session_randomness_decimal wallet 10 world0 inputs1).
  vm_compute. reflexivity.
Defined.

End MoreExamples.
